(** * Meeting scheduler: slot proposal and calendar-event publication

    A shallow embedding of [manual.py] (the procedural variant) and of
    [crew.py] (the agent-framework variant), and the properties of their
    two operations, [find_slot] and [create_calendar_event].

    Python values are modelled as follows.
    - [int] is [Z]; [str] is [string]; [None], strings, booleans, lists and
      dict literals are the constructors of [PyVal].
    - A naive [datetime] is the number of microseconds elapsed since the
      midnight that starts proleptic ordinal day 0, the quantity on which
      the library's arithmetic works; [timedelta] is a number of
      microseconds.  Both carry the library's range checks, which raise
      [OverflowError].  [strftime] prints the year as the C library does,
      in decimal without padding.
    - Exceptions are values of [py_exc]; a computation either returns or
      raises, and threads the state of the outside world (files on disk and
      the log of calls to external collaborators).  Every collaborator may
      raise, the opening of a file for writing included. *)

From Stdlib Require Import ZArith Lia List Ascii String.
From stdpp Require Import base gmap strings pretty.

Local Open Scope Z_scope.

(** ** Exceptions *)

(** The class of a raised object, as far as [except Exception] can tell:
    the three built-in classes that derive from [BaseException] only, and
    everything at or below [Exception], by name. *)
Inductive exc_class :=
  | KeyboardInterrupt
  | SystemExit
  | GeneratorExit
  | ExceptionSubclass (name : string).

Record py_exc := PyExc { exc_type : exc_class; exc_str : string }.

(** [isinstance(e, Exception)] *)
Definition isinstance_Exception (e : py_exc) : bool :=
  match exc_type e with
  | ExceptionSubclass _ => true
  | _ => false
  end.

Definition OverflowError (msg : string) : py_exc :=
  PyExc (ExceptionSubclass "OverflowError") msg.

(** The outcome of evaluating a Python expression or block. *)
Inductive outcome (A : Type) :=
  | Return (a : A)
  | Raise (e : py_exc).
Arguments Return {A} a.
Arguments Raise {A} e.

(** ** The [datetime] module *)

Module datetime.

Definition US_PER_SECOND : Z := 1000000.
Definition US_PER_DAY : Z := 86400 * US_PER_SECOND.
(** [date.max.toordinal()], the ordinal of 9999-12-31. *)
Definition MAXORDINAL : Z := 3652059.
(** Largest magnitude of [timedelta.days]. *)
Definition MAX_DELTA_DAYS : Z := 999999999.

(** A naive datetime: microseconds since the start of ordinal day 0. *)
Record t := of_micros { micros : Z }.

Record timedelta := delta_of_micros { delta_micros : Z }.

Definition toordinal (d : t) : Z := micros d / US_PER_DAY.

(** What a [datetime] object can hold: 0001-01-01T00:00:00 up to
    9999-12-31T23:59:59.999999. *)
Definition in_range (d : t) : Prop :=
  1 <= toordinal d <= MAXORDINAL.

(** [timedelta(hours=h, minutes=m)]: the constructor normalises to days,
    seconds and microseconds and refuses more than [MAX_DELTA_DAYS]
    days. *)
Definition mk_timedelta (hours minutes : Z) : outcome timedelta :=
  let us := (hours * 3600 + minutes * 60) * US_PER_SECOND in
  let days := us / US_PER_DAY in
  if (Z.abs days <=? MAX_DELTA_DAYS)
  then Return (delta_of_micros us)
  else Raise (OverflowError
                ("days=" +:+ pretty days +:+ "; must have magnitude <= 999999999")).

(** [datetime.__add__(self, other)] for a [timedelta]. *)
Definition add (d : t) (delta : timedelta) : outcome t :=
  let r := of_micros (micros d + delta_micros delta) in
  if (0 <? toordinal r) && (toordinal r <=? MAXORDINAL)
  then Return r
  else Raise (OverflowError "date value out of range").

(** *** Civil calendar, after [_ord2ymd] of the library *)

Definition DI400Y : Z := 146097.
Definition DI100Y : Z := 36524.
Definition DI4Y : Z := 1461.

Definition DAYS_IN_MONTH (m : Z) : Z :=
  nth (Z.to_nat m) [-1; 31; 28; 31; 30; 31; 30; 31; 31; 30; 31; 30; 31] 0.

Definition DAYS_BEFORE_MONTH (m : Z) : Z :=
  nth (Z.to_nat m) [-1; 0; 31; 59; 90; 120; 151; 181; 212; 243; 273; 304; 334] 0.

Definition b2z (b : bool) : Z := if b then 1 else 0.

Definition ord2ymd (n : Z) : Z * Z * Z :=
  let n := n - 1 in
  let n400 := n / DI400Y in
  let n := n mod DI400Y in
  let year := n400 * 400 + 1 in
  let n100 := n / DI100Y in
  let n := n mod DI100Y in
  let n4 := n / DI4Y in
  let n := n mod DI4Y in
  let n1 := n / 365 in
  let n := n mod 365 in
  let year := year + (n100 * 100 + n4 * 4 + n1) in
  if (n1 =? 4) || (n100 =? 4) then (year - 1, 12, 31)
  else
    let leapyear := (n1 =? 3) && (negb (n4 =? 24) || (n100 =? 3)) in
    let month := Z.shiftr (n + 50) 5 in
    let preceding := DAYS_BEFORE_MONTH month + b2z ((2 <? month) && leapyear) in
    if n <? preceding
    then
      let month := month - 1 in
      let preceding :=
        preceding - (DAYS_IN_MONTH month + b2z ((month =? 2) && leapyear)) in
      (year, month, n - preceding + 1)
    else (year, month, n - preceding + 1).

(** *** Formatting *)

Definition digit (d : Z) : ascii := ascii_of_nat (Z.to_nat (48 + d)).

(** [%02d] for a field below 100. *)
Definition pad2 (n : Z) : string :=
  String (digit (n / 10)) (String (digit (n mod 10)) EmptyString).

(** Four decimal digits, for a number from 1000 to 9999. *)
Definition pad4 (n : Z) : string :=
  pad2 (n / 100) +:+ pad2 (n mod 100).

(** [%Y] for a year from 1 to 9999.  [strftime] hands the format to the C
    library, which prints the year in decimal without padding: a year
    below 1000 has fewer than four digits ([datetime(999, 12, 31)] gives
    ['999']). *)
Definition year_text (y : Z) : string :=
  if y <? 10 then String (digit y) EmptyString
  else if y <? 100 then pad2 y
  else if y <? 1000 then String (digit (y / 100)) (pad2 (y mod 100))
  else pad4 y.

(** [d.year] *)
Definition year (d : t) : Z := fst (fst (ord2ymd (toordinal d))).

(** [d.strftime('%Y-%m-%dT%H:%M:%S')]: the year as [%Y] prints it, the
    other fields with two digits; the microsecond field is not printed. *)
Definition strftime_iso (d : t) : string :=
  let '(year, month, day) := ord2ymd (toordinal d) in
  let sec_of_day := (micros d mod US_PER_DAY) / US_PER_SECOND in
  let hour := sec_of_day / 3600 in
  let minute := (sec_of_day mod 3600) / 60 in
  let second := sec_of_day mod 60 in
  year_text year +:+ "-" +:+ pad2 month +:+ "-" +:+ pad2 day +:+ "T" +:+
  pad2 hour +:+ ":" +:+ pad2 minute +:+ ":" +:+ pad2 second.

(** The same reading with the microsecond field cleared. *)
Definition truncate_to_second (d : t) : t :=
  of_micros (micros d - micros d mod US_PER_SECOND).

(** [d] moved by a whole number of seconds. *)
Definition plus_seconds (d : t) (s : Z) : t :=
  of_micros (micros d + s * US_PER_SECOND).

(** *** From calendar fields to a datetime, after [_ymd2ord] of the library *)

Definition is_leap (y : Z) : bool :=
  (y mod 4 =? 0) && (negb (y mod 100 =? 0) || (y mod 400 =? 0)).

Definition days_before_year (y : Z) : Z :=
  let y := y - 1 in y * 365 + y / 4 - y / 100 + y / 400.

Definition days_before_month (y m : Z) : Z :=
  DAYS_BEFORE_MONTH m + b2z ((2 <? m) && is_leap y).

Definition ymd2ord (y m d : Z) : Z :=
  days_before_year y + days_before_month y m + d.

(** [datetime(year, month, day, hour, minute, second, microsecond)] *)
Definition make (y m d hh mm ss us : Z) : t :=
  of_micros (ymd2ord y m d * US_PER_DAY
             + (hh * 3600 + mm * 60 + ss) * US_PER_SECOND + us).

(** *** Vocabulary of the calendar proofs *)

Definition days_in_month (y m : Z) : Z :=
  DAYS_IN_MONTH m + b2z ((m =? 2) && is_leap y).

Definition valid_date (y m d : Z) : Prop :=
  1 <= m <= 12 /\ 1 <= d <= days_in_month y m.

(** Lexicographic combination of two comparisons. *)
Definition lex (c1 c2 : comparison) : comparison :=
  match c1 with Eq => c2 | _ => c1 end.

Definition ymd_compare (a b : Z * Z * Z) : comparison :=
  let '(y1, m1, d1) := a in
  let '(y2, m2, d2) := b in
  match y1 ?= y2 with
  | Eq => match m1 ?= m2 with
          | Eq => d1 ?= d2
          | c => c
          end
  | c => c
  end.

(** The timestamp text of six calendar fields. *)
Definition iso_text (y m d hh mm ss : Z) : string :=
  year_text y +:+ "-" +:+ pad2 m +:+ "-" +:+ pad2 d +:+ "T" +:+
  pad2 hh +:+ ":" +:+ pad2 mm +:+ ":" +:+ pad2 ss.

(** Whole seconds since the start of ordinal day 0. *)
Definition seconds (d : t) : Z := micros d / US_PER_SECOND.

(** [date(1000, 1, 1).toordinal()]: the first day of the first year that
    [%Y] prints with four digits. *)
Definition ORDINAL_Y1000 : Z := 364878.

End datetime.

(** ** Python values *)

(** The values that appear in the event body, in the provider's response
    and in the result record.  A dict literal keeps its insertion order. *)
#[warnings="-register-all"]
Inductive PyVal :=
  | PyNone
  | PyBool (b : bool)
  | PyInt (n : Z)
  | PyStr (s : string)
  | PyList (l : list PyVal)
  | PyDict (items : list (string * PyVal)).

(** A dict received from outside (the event resource of the provider) is a
    finite map; [d.get(k)] is [None] when [k] is missing. *)
Definition dict_get (d : gmap string PyVal) (k : string) : PyVal :=
  default PyNone (d !! k).

(** Truth value of an optional string ([None] and [''] are false). *)
Definition truthy_str (o : option string) : bool :=
  match o with
  | None => false
  | Some s => negb (String.eqb s "")
  end.

(** ** The outside world *)

(** One reading of the system clock: the UTC wall-clock reading and the
    offset of local time from UTC at that instant, in microseconds. *)
Record instant := Instant { utc : datetime.t; utcoffset : Z }.

(** [google.oauth2.credentials.Credentials], by what the program reads of
    it: the access token, the refresh token, whether the expiry has passed,
    and the serialisation [to_json()]. *)
Record Credentials := MkCredentials {
  token : option string;
  refresh_token : option string;
  expired : bool;
  to_json : string
}.

(** [creds.valid] *)
Definition valid (c : Credentials) : bool :=
  bool_decide (is_Some (token c)) && negb (expired c).

(** The API client returned by [build], bound to a credential. *)
Record Service := MkService { service_credentials : Credentials }.

(** Calls to external collaborators, as they are logged. *)
Inductive Call :=
  | CallNow
  | CallLoadToken (token_path : string)
  | CallRefresh
  | CallClientSecrets (credentials_path : string)
  | CallRunLocalServer
  | CallOpenWrite (path : string)
  | CallBuild
  | CallInsert (calendarId : string) (body : PyVal)
               (conferenceDataVersion : Z) (sendUpdates : string)
  | CallPrintExc (e : py_exc).

(** The state threaded through a run: the files on disk and the log of
    external calls, most recent first.  A file is kept under the path as
    the program spells it.  Which spellings name one file is known to the
    operating system only: the statements below read a file under the
    spelling under which the program reads and writes it, and say of the
    other paths only that a run that opened no file for writing left them
    alone. *)
Record World := MkWorld {
  files : gmap string string;
  trace : list Call
}.

Definition log (c : Call) (w : World) : World :=
  MkWorld (files w) (c :: trace w).

Definition write_file (path content : string) (w : World) : World :=
  MkWorld (<[path := content]> (files w)) (trace w).

(** How often the interactive authorization flow was entered: every
    construction of an [InstalledAppFlow] and every [run_local_server]. *)
Definition is_interactive (c : Call) : bool :=
  match c with
  | CallClientSecrets _ | CallRunLocalServer => true
  | _ => false
  end.

Definition is_refresh (c : Call) : bool :=
  match c with CallRefresh => true | _ => false end.

Definition is_insert (c : Call) : bool :=
  match c with CallInsert _ _ _ _ => true | _ => false end.

Definition is_open_write (c : Call) : bool :=
  match c with CallOpenWrite _ => true | _ => false end.

(** The calls that a run from [w] to [w'] added to the log, most recent
    first. *)
Definition calls_between (w w' : World) (new : list Call) : Prop :=
  trace w' = new ++ trace w.

(** The behaviour of the collaborators.  Each may depend on the world at
    the time of the call, hence on everything that happened before. *)
Record Env := MkEnv {
  (** the system clock *)
  clock : World -> instant;
  (** [str(dt.timestamp())] of the local reading of an instant *)
  timestamp_str : instant -> string;
  (** [Credentials.from_authorized_user_file(token_path, scopes)] *)
  from_authorized_user_file : World -> string -> outcome Credentials;
  (** [creds.refresh(Request())]: the credential after the exchange *)
  refresh : World -> Credentials -> outcome Credentials;
  (** [InstalledAppFlow.from_client_secrets_file(path, scopes)] followed by
      [flow.run_local_server(port=0)] *)
  from_client_secrets_file : World -> string -> outcome unit;
  run_local_server : World -> outcome Credentials;
  (** [open(path, 'w')]: the operating system creates or truncates the
      file, or refuses (a directory that is missing, a file or directory
      that may not be written) *)
  open_for_writing : World -> string -> outcome unit;
  (** [f.write(content)] and the closing of [f] at the end of the [with]
      block, which flushes the text to the file, or fails (a full disk) *)
  write_and_close : World -> string -> string -> outcome unit;
  (** [build('calendar', 'v3', credentials=creds)] *)
  build : World -> Credentials -> outcome Service;
  (** [service.events().insert(calendarId='primary', body=event,
      conferenceDataVersion=1, sendUpdates='all').execute()] *)
  insert_execute : World -> Service -> PyVal -> outcome (gmap string PyVal)
}.

(** ** Computations *)

Definition M (A : Type) : Type := World -> outcome A * World.

Definition ret {A} (a : A) : M A := fun w => (Return a, w).

Definition bind {A B} (m : M A) (k : A -> M B) : M B :=
  fun w =>
    match m w with
    | (Return a, w') => k a w'
    | (Raise e, w') => (Raise e, w')
    end.

Definition raise {A} (e : py_exc) : M A := fun w => (Raise e, w).

(** Lifting an expression that may raise but touches nothing. *)
Definition lift {A} (o : outcome A) : M A := fun w => (o, w).

(** [try: body  except Exception as e: handler(e)] *)
Definition try_except {A} (body : M A) (handler : py_exc -> M A) : M A :=
  fun w =>
    match body w with
    | (Return a, w') => (Return a, w')
    | (Raise e, w') =>
        if isinstance_Exception e then handler e w' else (Raise e, w')
    end.

(** A call to a collaborator: it sees the world as it is, and is logged. *)
Definition call {A} (c : Call) (f : World -> outcome A) : M A :=
  fun w => (f w, log c w).

#[global] Instance M_ret : MRet M := @ret.
#[global] Instance M_bind : MBind M := fun A B k m => bind m k.

Section Program.

Variable env : Env.

(** [os.path.exists(path)] *)
Definition path_exists (path : string) : M bool :=
  fun w => (Return (bool_decide (is_Some (files w !! path))), w).

(** [open(path, 'w')]: raises and leaves the disk alone, or leaves the
    file empty. *)
Definition open_w (path : string) : M unit :=
  fun w =>
    match open_for_writing env w path with
    | Return _ => (Return tt, write_file path "" (log (CallOpenWrite path) w))
    | Raise e => (Raise e, log (CallOpenWrite path) w)
    end.

(** [f.write(content)] and the closing of [f]: the text reaches the file,
    or the failure leaves the file as [open] left it. *)
Definition write_close (path content : string) : M unit :=
  fun w =>
    match write_and_close env w path content with
    | Return _ => (Return tt, write_file path content w)
    | Raise e => (Raise e, w)
    end.

(** [with open(path, 'w') as f: f.write(content)] *)
Definition open_write (path content : string) : M unit :=
  open_w path;;
  write_close path content.

(** What the two wall clocks show in world [w]: UTC, and local time. *)
Definition utc_reading (w : World) : datetime.t := utc (clock env w).

Definition local_reading (w : World) : datetime.t :=
  datetime.of_micros
    (datetime.micros (utc (clock env w)) + utcoffset (clock env w)).

(** [datetime.utcnow()] and [datetime.now()] *)
Definition utcnow : M datetime.t :=
  call CallNow (fun w => Return (utc_reading w)).

Definition now : M datetime.t :=
  call CallNow (fun w => Return (local_reading w)).

(** [str(datetime.now().timestamp())] *)
Definition now_timestamp_str : M string :=
  call CallNow (fun w => Return (timestamp_str env (clock env w))).

End Program.

(** ** The event body

    The dict literal bound to [event], identical in both files
    (manual.py lines 64-80, crew.py lines 82-98). *)

Definition py_optional_str (o : option string) : PyVal :=
  match o with
  | None => PyNone
  | Some s => PyStr s
  end.

Definition event_body (summary : string) (description : option string)
    (start_time end_time timezone : string) (attendees : list string)
    (timestamp : string) : PyVal :=
  PyDict
    [ ("summary", PyStr summary);
      ("description", py_optional_str description);
      ("start", PyDict [("dateTime", PyStr start_time); ("timeZone", PyStr timezone)]);
      ("end", PyDict [("dateTime", PyStr end_time); ("timeZone", PyStr timezone)]);
      ("attendees",
        PyList (map (fun email => PyDict [("email", PyStr email)]) attendees));
      ("conferenceData",
        PyDict
          [ ("createRequest",
              PyDict
                [ ("requestId", PyStr ("event_" +:+ timestamp));
                  ("conferenceSolutionKey", PyDict [("type", PyStr "hangoutsMeet")]) ]) ]);
      ("reminders", PyDict [("useDefault", PyBool true)]);
      ("guestsCanModify", PyBool true);
      ("guestsCanInviteOthers", PyBool true);
      ("guestsCanSeeOtherGuests", PyBool true) ].

(** The two result records. *)
Definition success_result (created_event : gmap string PyVal) : PyVal :=
  PyDict
    [ ("status", PyStr "success");
      ("event_link", dict_get created_event "htmlLink");
      ("meet_link", dict_get created_event "hangoutLink");
      ("event_id", dict_get created_event "id") ].

Definition error_result (e : py_exc) : PyVal :=
  PyDict
    [ ("status", PyStr "error");
      ("error_message", PyStr (exc_str e)) ].

(** [not creds or not creds.valid] *)
Definition no_valid_credentials (creds : option Credentials) : bool :=
  match creds with
  | None => true
  | Some c => negb (valid c)
  end.

(** [creds and creds.expired and creds.refresh_token] *)
Definition refreshable (creds : option Credentials) : bool :=
  match creds with
  | None => false
  | Some c => expired c && truthy_str (refresh_token c)
  end.

Definition AttributeError (msg : string) : py_exc :=
  PyExc (ExceptionSubclass "AttributeError") msg.

(** ** manual.py *)

Module Manual.
Section Manual.

Variable env : Env.

Definition find_slot (duration_minutes : Z) (timezone : string)
  : M (string * string) :=
  now ← utcnow env;
  hour ← lift (datetime.mk_timedelta 1 0);
  start ← lift (datetime.add now hour);
  duration ← lift (datetime.mk_timedelta 0 duration_minutes);
  end_ ← lift (datetime.add start duration);
  let start_iso := datetime.strftime_iso start in
  let end_iso := datetime.strftime_iso end_ in
  ret (start_iso, end_iso).

Definition get_calendar_service (credentials_path token_path : string)
  : M Service :=
  (* Load existing token if it exists *)
  token_exists ← path_exists token_path;
  creds ← (if (token_exists : bool)
            then c ← call (CallLoadToken token_path)
                        (fun w => from_authorized_user_file env w token_path);
                 ret (Some c)
            else ret None);
  (* If no valid credentials, run login flow *)
  creds ← (if no_valid_credentials creds
            then
              creds ← (if refreshable creds
                        then
                          match creds with
                          | Some c => call CallRefresh (fun w => refresh env w c)
                          | None => (* not reached: [refreshable None] is false *)
                              raise (AttributeError
                                "'NoneType' object has no attribute 'refresh'")
                          end
                        else
                          call (CallClientSecrets credentials_path)
                            (fun w => from_client_secrets_file env w credentials_path);;
                          call CallRunLocalServer (run_local_server env));
              (* Save token for future use *)
              open_write env token_path (to_json creds);;
              ret (Some creds)
            else ret creds);
  match creds with
  | Some c => call CallBuild (fun w => build env w c)
  | None => (* not reached: [creds] is bound on every path that gets here *)
      raise (AttributeError "'NoneType' object has no attribute 'valid'")
  end.

Definition create_calendar_event (summary start_time end_time : string)
    (attendees : list string) (description : option string)
    (timezone credentials_path token_path : string) : M PyVal :=
  try_except
    (service ← get_calendar_service credentials_path token_path;
     timestamp ← now_timestamp_str env;
     let event :=
       event_body summary description start_time end_time timezone
         attendees timestamp in
     created_event ← call (CallInsert "primary" event 1 "all")
                        (fun w => insert_execute env w service event);
     ret (success_result created_event))
    (fun e => ret (error_result e)).

End Manual.
End Manual.

(** ** crew.py *)

Module Crew.
Section Crew.

Variable env : Env.

Definition find_slot (duration_minutes : Z) (timezone : string) : M PyVal :=
  now ← now env;
  hour ← lift (datetime.mk_timedelta 1 0);
  start ← lift (datetime.add now hour);
  duration ← lift (datetime.mk_timedelta 0 duration_minutes);
  end_ ← lift (datetime.add start duration);
  ret (PyDict
         [ ("start_time", PyStr (datetime.strftime_iso start));
           ("end_time", PyStr (datetime.strftime_iso end_));
           ("timezone", PyStr timezone) ]).

Definition create_calendar_event (summary start_time end_time : string)
    (attendees : list string) (description : option string)
    (timezone credentials_path token_path : string) : M PyVal :=
  try_except
    ((* Load credentials from token file (JSON format) *)
     token_exists ← path_exists token_path;
     creds ← (if (token_exists : bool)
               then c ← call (CallLoadToken token_path)
                           (fun w => from_authorized_user_file env w token_path);
                    ret (Some c)
               else ret None);
     (* Refresh or create new credentials *)
     creds ← (if no_valid_credentials creds
               then
                 creds ← (if refreshable creds
                           then
                             match creds with
                             | Some c => call CallRefresh (fun w => refresh env w c)
                             | None => (* not reached: [refreshable None] is false *)
                                 raise (AttributeError
                                   "'NoneType' object has no attribute 'refresh'")
                             end
                           else
                             call (CallClientSecrets credentials_path)
                               (fun w => from_client_secrets_file env w credentials_path);;
                             call CallRunLocalServer (run_local_server env));
                 (* Save new token *)
                 open_write env token_path (to_json creds);;
                 ret (Some creds)
               else ret creds);
     (* Build Google Calendar service *)
     service ← match creds with
                | Some c => call CallBuild (fun w => build env w c)
                | None => (* not reached: [creds] is bound on every path *)
                    raise (AttributeError
                      "'NoneType' object has no attribute 'valid'")
                end;
     timestamp ← now_timestamp_str env;
     let event :=
       event_body summary description start_time end_time timezone
         attendees timestamp in
     created_event ← call (CallInsert "primary" event 1 "all")
                        (fun w => insert_execute env w service event);
     ret (success_result created_event))
    (fun e =>
       call (CallPrintExc e) (fun _ => Return tt);;
       ret (error_result e)).

End Crew.
End Crew.

(** ** Vocabulary of the statements *)

(** The slot that the specification describes for a clock reading: the
    reading cut to whole seconds plus one hour, and that plus the
    duration. *)
Definition slot_start (reading : datetime.t) : datetime.t :=
  datetime.plus_seconds (datetime.truncate_to_second reading) 3600.

Definition slot_end (reading : datetime.t) (duration_minutes : Z) : datetime.t :=
  datetime.plus_seconds (slot_start reading) (60 * duration_minutes).

(** The dict that [crew.py] returns for a slot. *)
Definition crew_slot (start_time end_time timezone : string) : PyVal :=
  PyDict
    [ ("start_time", PyStr start_time);
      ("end_time", PyStr end_time);
      ("timezone", PyStr timezone) ].

(** [d[k]] on a dict literal. *)
Definition dict_item (k : string) (v : PyVal) : option PyVal :=
  match v with
  | PyDict items =>
      snd <$> List.find (fun kv => String.eqb (fst kv) k) items
  | _ => None
  end.

(** [body['conferenceData']['createRequest']['requestId']] *)
Definition request_id_of (body : PyVal) : option PyVal :=
  match dict_item "conferenceData" body with
  | Some conference_data =>
      match dict_item "createRequest" conference_data with
      | Some create_request => dict_item "requestId" create_request
      | None => None
      end
  | None => None
  end.

(** The request identifiers of the insert calls of a log, most recent
    first. *)
Definition request_ids (calls : list Call) : list (option PyVal) :=
  flat_map (fun c =>
              match c with
              | CallInsert _ body _ _ => [request_id_of body]
              | _ => []
              end) calls.

(** The datetimes bound to [start] and [end] for a clock reading (lines
    15-16 of manual.py, lines 31-32 of crew.py). *)
Definition slot_of_reading (reading : datetime.t) (duration_minutes : Z)
  : outcome (datetime.t * datetime.t) :=
  match datetime.mk_timedelta 1 0 with
  | Raise e => Raise e
  | Return hour =>
      match datetime.add reading hour with
      | Raise e => Raise e
      | Return start =>
          match datetime.mk_timedelta 0 duration_minutes with
          | Raise e => Raise e
          | Return duration =>
              match datetime.add start duration with
              | Raise e => Raise e
              | Return end_ => Return (start, end_)
              end
          end
      end
  end.

Section Worlds.

Variable env : Env.
Variables (summary start_time end_time : string) (attendees : list string)
  (description : option string) (timezone token_path : string).

(** The event submitted when the service was obtained in world [w1]:
    the clock is read in [w1]. *)
Definition submitted_event (w1 : World) : PyVal :=
  event_body summary description start_time end_time timezone attendees
    (timestamp_str env (clock env w1)).

(** The world after the clock was read and the event submitted. *)
Definition after_insert (w1 : World) : World :=
  log (CallInsert "primary" (submitted_event w1) 1 "all") (log CallNow w1).

(** The world after the cache was loaded. *)
Definition after_load (w : World) : World :=
  log (CallLoadToken token_path) w.

(** The world once [open(token_path, 'w')] went through in world [w]: the
    call is logged and the file is empty. *)
Definition opened (w : World) : World :=
  write_file token_path "" (log (CallOpenWrite token_path) w).

(** In world [w] the cache file can be opened for writing, and [content]
    written to it. *)
Definition can_save (content : string) (w : World) : Prop :=
  open_for_writing env w token_path = Return tt
  /\ write_and_close env (opened w) token_path content = Return tt.

(** The world after [content] was saved in world [w]. *)
Definition saved (content : string) (w : World) : World :=
  write_file token_path content (opened w).

(** The world after the cache was loaded and the refresh exchange made. *)
Definition refreshed (w : World) : World :=
  log CallRefresh (after_load w).

(** The world after the cache was loaded, refreshed into [c'] and
    rewritten. *)
Definition after_refresh (w : World) (c' : Credentials) : World :=
  saved (to_json c') (refreshed w).

End Worlds.

(** ** Stub collaborators for the examples *)

Module Stub.

(** [date(1970, 1, 1).toordinal()] *)
Definition EPOCH_ORDINAL : Z := 719163.

Fixpoint rstrip_zeros (s : string) : string :=
  match s with
  | EmptyString => EmptyString
  | String c rest =>
      let rest' := rstrip_zeros rest in
      if String.eqb rest' "" && Ascii.eqb c "0" then EmptyString
      else String c rest'
  end.

(** [str(dt.timestamp())] for a reading after 1970, at the microsecond
    resolution of the clock: seconds since the epoch, a point, and the
    fraction without trailing zeros. *)
Definition str_timestamp (i : instant) : string :=
  let us := datetime.micros (utc i) - EPOCH_ORDINAL * datetime.US_PER_DAY in
  let frac := us mod datetime.US_PER_SECOND in
  let six := datetime.pad2 (frac / 10000) +:+ datetime.pad2 (frac / 100 mod 100)
             +:+ datetime.pad2 (frac mod 100) in
  let digits := rstrip_zeros six in
  pretty (us / datetime.US_PER_SECOND) +:+ "." +:+
  (if String.eqb digits "" then "0" else digits).

(** 2026-11-03T12:00:00.250000 UTC on a host five hours east of UTC. *)
Definition noon : instant :=
  Instant (datetime.make 2026 11 3 12 0 0 250000) (5 * 3600 * 1000000).

Definition fresh : Credentials :=
  MkCredentials (Some "ya29.fresh") (Some "1//refresh") false
    "{token: ya29.fresh, refresh_token: 1//refresh, expiry: 2026-11-03T13:00:00Z}".

Definition stale : Credentials :=
  MkCredentials (Some "ya29.stale") (Some "1//refresh") true
    "{token: ya29.stale, refresh_token: 1//refresh, expiry: 2026-11-01T00:00:00Z}".

Definition resource : gmap string PyVal :=
  {[ "htmlLink" := PyStr "L"; "hangoutLink" := PyStr "M"; "id" := PyStr "X" ]}.

Definition file_not_found (path : string) : py_exc :=
  PyExc (ExceptionSubclass "FileNotFoundError")
    ("[Errno 2] No such file or directory: '" +:+ path +:+ "'").

Definition http_error : py_exc :=
  PyExc (ExceptionSubclass "HttpError") "<HttpError 403 Insufficient Permission>".

Definition load (w : World) (path : string) : outcome Credentials :=
  match files w !! path with
  | None => Raise (file_not_found path)
  | Some content =>
      if String.eqb content (to_json fresh) then Return fresh
      else if String.eqb content (to_json stale) then Return stale
      else Raise (PyExc (ExceptionSubclass "ValueError")
                    "Authorized user info was not in the expected format")
  end.

(** A clock that stands at [noon], and one that has moved on by one
    millisecond for every call logged so far. *)
Definition stopped_clock (w : World) : instant := noon.

Definition running_clock (w : World) : instant :=
  Instant
    (datetime.of_micros
       (datetime.micros (utc noon) + 1000 * Z.of_nat (length (trace w))))
    (utcoffset noon).

(** A host with a given clock and a given behaviour of the refresh
    exchange and of the provider's insert call. *)
Definition env_on (open_result : string -> outcome unit)
    (clock : World -> instant)
    (refresh_result : Credentials -> outcome Credentials)
    (insert_result : outcome (gmap string PyVal)) : Env :=
  {| clock := clock;
     timestamp_str := str_timestamp;
     from_authorized_user_file := load;
     refresh := fun _ c => refresh_result c;
     from_client_secrets_file := fun w path =>
       match files w !! path with
       | Some _ => Return tt
       | None => Raise (file_not_found path)
       end;
     run_local_server := fun _ => Return fresh;
     open_for_writing := fun _ path => open_result path;
     write_and_close := fun _ _ _ => Return tt;
     build := fun _ c => Return (MkService c);
     insert_execute := fun _ _ _ => insert_result |}.

(** The same on a disk where every file can be written. *)
Definition env (clock : World -> instant)
    (refresh_result : Credentials -> outcome Credentials)
    (insert_result : outcome (gmap string PyVal)) : Env :=
  env_on (fun _ => Return tt) clock refresh_result insert_result.


(** The usual host: the clock stands at [noon] for the whole run,
    refreshing yields [fresh], inserting succeeds. *)
Definition host : Env :=
  env stopped_clock (fun _ => Return fresh) (Return resource).

(** The same host with a clock that runs. *)
Definition host_running : Env :=
  env running_clock (fun _ => Return fresh) (Return resource).


(** A host whose refresh exchange succeeds and hands back the credential
    as it was. *)
Definition host_refresh_unchanged : Env :=
  env stopped_clock (fun c => Return c) (Return resource).

(** A host whose provider rejects the insert call. *)
Definition host_insert_rejected : Env :=
  env stopped_clock (fun _ => Return fresh) (Raise http_error).



(** A host on which no file may be opened for writing. *)
Definition permission_denied (path : string) : py_exc :=
  PyExc (ExceptionSubclass "PermissionError")
    ("[Errno 13] Permission denied: '" +:+ path +:+ "'").

Definition host_read_only : Env :=
  env_on (fun path => Raise (permission_denied path))
    stopped_clock (fun _ => Return fresh) (Return resource).

(** 0999-12-31T22:45:00 UTC on a host whose local time is UTC, and a host
    whose clock stands there. *)
Definition year_999 : instant :=
  Instant (datetime.make 999 12 31 22 45 0 0) 0.

Definition host_year_999 : Env :=
  env (fun _ => year_999) (fun _ => Return fresh) (Return resource).

Definition empty_disk : World := MkWorld ∅ [].

Definition disk_with (path content : string) : World :=
  MkWorld {[ path := content ]} [].

End Stub.

(** ** The script of manual.py

    The block under [if __name__ == "__main__"] up to the value bound to
    [event_details] (lines 104-117): the slot found with the default
    arguments is handed to [create_calendar_event].  The loop that prints
    the items of [event_details] is left out. *)

Module ManualScript.
Section ManualScript.

Variable env : Env.

Definition main : M PyVal :=
  '(start, end_) ← Manual.find_slot env 60 "UTC";
  Manual.create_calendar_event env
    "Project Meeting with auto find slot" start end_
    ["iam.abu.017@gmail.com"]
    (Some "Discussion about next steps for the project")
    "UTC" "./test.json" "token.json".

End ManualScript.
End ManualScript.

(** ** Vocabulary of the further statements *)

(** The value bound to [creds] once the cache was consulted (lines 28-32 of
    manual.py, lines 60-65 of crew.py). *)
Definition load_cached (env : Env) (token_path : string)
  : M (option Credentials) :=
  token_exists ← path_exists token_path;
  if (token_exists : bool)
  then c ← call (CallLoadToken token_path)
             (fun w => from_authorized_user_file env w token_path);
       ret (Some c)
  else ret None.

(** The world after the interactive flow was entered in world [w0] and
    went through. *)
Definition logged_in (credentials_path : string) (w0 : World) : World :=
  log CallRunLocalServer (log (CallClientSecrets credentials_path) w0).

(** The world after the interactive flow, entered in world [w0], produced
    the credential [c] and the cache file was written. *)
Definition after_login (credentials_path token_path : string) (w0 : World)
    (c : Credentials) : World :=
  saved token_path (to_json c) (logged_in credentials_path w0).

Definition is_load_token (c : Call) : bool :=
  match c with CallLoadToken _ => true | _ => false end.

Definition is_print_exc (c : Call) : bool :=
  match c with CallPrintExc _ => true | _ => false end.

Definition is_now (c : Call) : bool :=
  match c with CallNow => true | _ => false end.

(** ** Further stub collaborators *)

Module StubEdge.

(** 9999-12-31T22:30:00 UTC, on a host whose local time is UTC. *)
Definition late : instant :=
  Instant (datetime.make 9999 12 31 22 30 0 0) 0.

(** A host whose clock stands at [late]. *)
Definition host_late : Env :=
  Stub.env (fun _ => late) (fun _ => Return Stub.fresh) (Return Stub.resource).

(** An expired credential whose refresh token is the empty string. *)
Definition tokenless : Credentials :=
  MkCredentials (Some "ya29.stale") (Some "") true
    "{token: ya29.stale, refresh_token: , expiry: 2026-11-01T00:00:00Z}".

(** A host on which every cache file parses to [tokenless]. *)
Definition host_tokenless : Env :=
  {| clock := Stub.stopped_clock;
     timestamp_str := Stub.str_timestamp;
     from_authorized_user_file := fun _ _ => Return tokenless;
     refresh := fun _ _ => Return Stub.fresh;
     from_client_secrets_file := fun _ _ => Return tt;
     run_local_server := fun _ => Return Stub.fresh;
     open_for_writing := fun _ _ => Return tt;
     write_and_close := fun _ _ _ => Return tt;
     build := fun _ c => Return (MkService c);
     insert_execute := fun _ _ _ => Return Stub.resource |}.



(** A disk with the client-secrets file and no cache. *)
Definition disk_with_secrets : World :=
  Stub.disk_with "./test.json" "{installed: {client_id: 1234.apps}}".

End StubEdge.

(** * Properties *)

(** ** The calendar *)

Section Calendar.

Import datetime.


Lemma is_leap_decompose q c f e :
  0 <= c <= 3 -> 0 <= f <= 24 -> 0 <= e <= 3 ->
  is_leap (400 * q + 100 * c + 4 * f + e + 1)
  = (e =? 3) && (negb (f =? 24) || (c =? 3)).
Proof.
  intros Hc Hf He. unfold is_leap.
  set (y := 400 * q + 100 * c + 4 * f + e + 1).
  assert (H4 : y mod 4 = (e + 1) mod 4).
  { subst y. replace (400 * q + 100 * c + 4 * f + e + 1)
      with ((e + 1) + (100 * q + 25 * c + f) * 4) by lia.
    apply Z.mod_add; lia. }
  assert (H100 : y mod 100 = (4 * f + e + 1) mod 100).
  { subst y. replace (400 * q + 100 * c + 4 * f + e + 1)
      with ((4 * f + e + 1) + (4 * q + c) * 100) by lia.
    apply Z.mod_add; lia. }
  assert (H400 : y mod 400 = (100 * c + 4 * f + e + 1) mod 400).
  { subst y. replace (400 * q + 100 * c + 4 * f + e + 1)
      with ((100 * c + 4 * f + e + 1) + q * 400) by lia.
    apply Z.mod_add; lia. }
  rewrite H4, H100, H400. clear H4 H100 H400 y.
  destruct (Z.eqb_spec e 3) as [->|He3].
  - replace ((3 + 1) mod 4) with 0 by reflexivity. simpl.
    destruct (Z.eqb_spec f 24) as [->|Hf24].
    + replace ((4 * 24 + 3 + 1) mod 100) with 0 by reflexivity. simpl.
      destruct (Z.eqb_spec c 3) as [->|Hc3].
      * reflexivity.
      * assert (H : (100 * c + 4 * 24 + 3 + 1) mod 400 <> 0).
        { intros H. apply Z.mod_divide in H; [|lia]. destruct H as [k Hk]. lia. }
        apply Z.eqb_neq in H. rewrite H. reflexivity.
    + assert (H : (4 * f + 3 + 1) mod 100 <> 0).
      { intros H. apply Z.mod_divide in H; [|lia]. destruct H as [k Hk]. lia. }
      apply Z.eqb_neq in H. rewrite H. reflexivity.
  - assert (H : (e + 1) mod 4 <> 0).
    { intros H. apply Z.mod_divide in H; [|lia]. destruct H as [k Hk]. lia. }
    apply Z.eqb_neq in H. rewrite H. reflexivity.
Qed.

Lemma days_before_year_decompose q c f e :
  0 <= c <= 3 -> 0 <= f <= 24 -> 0 <= e <= 3 ->
  days_before_year (400 * q + 100 * c + 4 * f + e + 1)
  = 146097 * q + 36524 * c + 1461 * f + 365 * e.
Proof.
  intros Hc Hf He. unfold days_before_year.
  replace (400 * q + 100 * c + 4 * f + e + 1 - 1)
    with (400 * q + 100 * c + 4 * f + e) by lia.
  set (Y := 400 * q + 100 * c + 4 * f + e).
  assert (H4 : Y / 4 = 100 * q + 25 * c + f).
  { symmetry. apply (Z.div_unique _ _ _ e); lia. }
  assert (H100 : Y / 100 = 4 * q + c).
  { symmetry. apply (Z.div_unique _ _ _ (4 * f + e)); lia. }
  assert (H400 : Y / 400 = q).
  { symmetry. apply (Z.div_unique _ _ _ (100 * c + 4 * f + e)); lia. }
  rewrite H4, H100, H400. lia.
Qed.

Ltac eval_tables :=
  repeat match goal with
    | |- context [DAYS_BEFORE_MONTH ?k] =>
        let v := eval vm_compute in (DAYS_BEFORE_MONTH k) in
        change (DAYS_BEFORE_MONTH k) with v
    | |- context [DAYS_IN_MONTH ?k] =>
        let v := eval vm_compute in (DAYS_IN_MONTH k) in
        change (DAYS_IN_MONTH k) with v
    | |- context [b2z ?b] =>
        let v := eval vm_compute in (b2z b) in
        change (b2z b) with v
    end.

Lemma ord2ymd_spec n y m d :
  1 <= n -> ord2ymd n = (y, m, d) ->
  1 <= m <= 12 /\ 1 <= d <= days_in_month y m /\ ymd2ord y m d = n.
Proof.
  intros Hn. unfold ord2ymd.
  rewrite Z.shiftr_div_pow2 by lia. change (2 ^ 5) with 32.
  unfold DI400Y, DI100Y, DI4Y.
  set (a := n - 1).
  set (n400 := a / 146097). set (r400 := a mod 146097).
  set (n100 := r400 / 36524). set (r100 := r400 mod 36524).
  set (n4 := r100 / 1461). set (r4 := r100 mod 1461).
  set (n1 := r4 / 365). set (r1 := r4 mod 365).
  assert (Ha : a = 146097 * n400 + r400 /\ 0 <= r400 < 146097).
  { subst n400 r400. split; [apply Z.div_mod; lia | apply Z.mod_pos_bound; lia]. }
  assert (Hb : r400 = 36524 * n100 + r100 /\ 0 <= r100 < 36524).
  { subst n100 r100. split; [apply Z.div_mod; lia | apply Z.mod_pos_bound; lia]. }
  assert (Hc : r100 = 1461 * n4 + r4 /\ 0 <= r4 < 1461).
  { subst n4 r4. split; [apply Z.div_mod; lia | apply Z.mod_pos_bound; lia]. }
  assert (Hd : r4 = 365 * n1 + r1 /\ 0 <= r1 < 365).
  { subst n1 r1. split; [apply Z.div_mod; lia | apply Z.mod_pos_bound; lia]. }
  assert (H100 : 0 <= n100 <= 4) by lia.
  assert (H4 : 0 <= n4 <= 24) by lia.
  assert (H1 : 0 <= n1 <= 4) by lia.
  clearbody n400 r400 n100 r100 n4 r4 n1 r1.
  assert (Hna : n = a + 1) by (subst a; lia). clearbody a.
  unfold days_in_month, ymd2ord, days_before_month.
  destruct (Z.eqb_spec n1 4) as [E1|E1]; simpl orb.
  { (* last day of a leap year that closes a 4-year cycle *)
    intros [= <- <- <-].
    replace (n400 * 400 + 1 + (n100 * 100 + n4 * 4 + n1) - 1)
      with (400 * n400 + 100 * n100 + 4 * n4 + 3 + 1) by lia.
    rewrite is_leap_decompose, days_before_year_decompose by lia.
    replace (n4 =? 24) with false by (symmetry; apply Z.eqb_neq; lia).
    eval_tables. lia. }
  destruct (Z.eqb_spec n100 4) as [E100|E100].
  { (* last day of a 400-year cycle *)
    intros [= <- <- <-].
    replace (n400 * 400 + 1 + (n100 * 100 + n4 * 4 + n1) - 1)
      with (400 * n400 + 100 * 3 + 4 * 24 + 3 + 1) by lia.
    rewrite is_leap_decompose, days_before_year_decompose by lia.
    eval_tables. lia. }
  replace (n400 * 400 + 1 + (n100 * 100 + n4 * 4 + n1))
    with (400 * n400 + 100 * n100 + 4 * n4 + n1 + 1) by lia.
  set (leapyear := (n1 =? 3) && (negb (n4 =? 24) || (n100 =? 3))).
  set (year := 400 * n400 + 100 * n100 + 4 * n4 + n1 + 1).
  assert (Hleap : is_leap year = leapyear)
    by (apply is_leap_decompose; lia).
  assert (Hdby : days_before_year year = a - r1)
    by (subst year; rewrite days_before_year_decompose; lia).
  pose proof (Z.div_mod (r1 + 50) 32 ltac:(lia)) as Hq.
  pose proof (Z.mod_pos_bound (r1 + 50) 32 ltac:(lia)) as Hr.
  set (month := (r1 + 50) / 32) in *.
  clearbody month leapyear year.
  assert (Hcases : month = 1 \/ month = 2 \/ month = 3 \/ month = 4 \/
                   month = 5 \/ month = 6 \/ month = 7 \/ month = 8 \/
                   month = 9 \/ month = 10 \/ month = 11 \/ month = 12) by lia.
  destruct Hcases as [->|[->|[->|[->|[->|[->|[->|[->|[->|[->|[->| ->]]]]]]]]]]];
    destruct leapyear;
    match goal with |- context [?x <? ?y] => destruct (Z.ltb_spec x y) as [H|H] end;
    intros [= <- <- <-]; revert H; rewrite ?Hleap, ?Hdby; eval_tables; lia.
Qed.


Lemma days_before_year_succ y :
  days_before_year (y + 1) = days_before_year y + 365 + b2z (is_leap y).
Proof.
  unfold days_before_year, is_leap, b2z.
  replace (y + 1 - 1) with y by lia.
  destruct (Z.eqb_spec (y mod 4) 0) as [H4|H4];
    destruct (Z.eqb_spec (y mod 100) 0) as [H100|H100];
    destruct (Z.eqb_spec (y mod 400) 0) as [H400|H400]; simpl;
    Z.to_euclidean_division_equations; lia.
Qed.

Lemma days_before_year_mono y1 y2 :
  y1 <= y2 -> days_before_year y1 + 365 * (y2 - y1) <= days_before_year y2.
Proof.
  intros H. replace y2 with (y1 + (y2 - y1)) at 2 by lia.
  assert (Hk : 0 <= y2 - y1) by lia. revert Hk.
  generalize (y2 - y1) as k. clear y2 H. intros k Hk. 
  pattern k. apply natlike_ind; [ | | exact Hk].
  - replace (y1 + 0) with y1 by lia. lia.
  - intros x Hx IH. replace (y1 + Z.succ x) with (y1 + x + 1) by lia.
    rewrite days_before_year_succ. unfold b2z. destruct (is_leap _); lia.
Qed.

Ltac month_cases m :=
  let H := fresh in
  assert (H : m = 1 \/ m = 2 \/ m = 3 \/ m = 4 \/ m = 5 \/ m = 6 \/ m = 7 \/
              m = 8 \/ m = 9 \/ m = 10 \/ m = 11 \/ m = 12) by lia;
  destruct H as [->|[->|[->|[->|[->|[->|[->|[->|[->|[->|[->| ->]]]]]]]]]]].

Lemma month_end_le_next_month y m1 d1 m2 :
  valid_date y m1 d1 -> m1 < m2 <= 12 ->
  days_before_month y m1 + d1 <= days_before_month y m2.
Proof.
  unfold valid_date, days_in_month, days_before_month.
  intros [Hm Hd] Hlt. revert Hd.
  destruct (is_leap y); month_cases m1; eval_tables; intros Hd;
    month_cases m2; eval_tables; lia.
Qed.

Lemma day_of_year_le y m d :
  valid_date y m d ->
  1 <= days_before_month y m + d <= 365 + b2z (is_leap y).
Proof.
  unfold valid_date, days_in_month, days_before_month.
  intros [Hm Hd]. revert Hd.
  destruct (is_leap y); month_cases m; eval_tables; lia.
Qed.

Lemma ymd2ord_lt y1 m1 d1 y2 m2 d2 :
  valid_date y1 m1 d1 -> valid_date y2 m2 d2 ->
  ymd_compare (y1, m1, d1) (y2, m2, d2) = Lt ->
  ymd2ord y1 m1 d1 < ymd2ord y2 m2 d2.
Proof.
  intros V1 V2. unfold ymd_compare, ymd2ord.
  destruct (Z.compare_spec y1 y2) as [->|Hy|Hy]; [| |discriminate].
  - destruct (Z.compare_spec m1 m2) as [->|Hm|Hm]; [| |discriminate].
    + destruct (Z.compare_spec d1 d2); [discriminate | lia | discriminate].
    + intros _.
      pose proof (month_end_le_next_month y2 m1 d1 m2 V1) as H.
      destruct V2 as [? ?]. lia.
  - intros _.
    pose proof (day_of_year_le _ _ _ V1). pose proof (day_of_year_le _ _ _ V2).
    pose proof (days_before_year_succ y1).
    pose proof (days_before_year_mono (y1 + 1) y2 ltac:(lia)). lia.
Qed.

Lemma ord2ymd_valid n :
  1 <= n ->
  let '(y, m, d) := ord2ymd n in valid_date y m d /\ ymd2ord y m d = n.
Proof.
  intros Hn. destruct (ord2ymd n) as [[y m] d] eqn:E.
  apply ord2ymd_spec in E; [|exact Hn]. unfold valid_date. tauto.
Qed.

(** The civil date grows with the ordinal. *)
Lemma ord2ymd_lt n1 n2 :
  1 <= n1 -> n1 < n2 -> ymd_compare (ord2ymd n1) (ord2ymd n2) = Lt.
Proof.
  intros H1 Hlt.
  pose proof (ord2ymd_valid n1 H1) as V1.
  pose proof (ord2ymd_valid n2 ltac:(lia)) as V2.
  destruct (ord2ymd n1) as [[y1 m1] d1], (ord2ymd n2) as [[y2 m2] d2].
  destruct V1 as [V1 E1], V2 as [V2 E2].
  destruct (ymd_compare (y1, m1, d1) (y2, m2, d2)) eqn:C; [| reflexivity |].
  - exfalso. unfold ymd_compare in C.
    destruct (Z.compare_spec y1 y2); try discriminate.
    destruct (Z.compare_spec m1 m2); try discriminate.
    apply Z.compare_eq in C. subst. lia.
  - exfalso.
    assert (C' : ymd_compare (y2, m2, d2) (y1, m1, d1) = Lt).
    { unfold ymd_compare in *.
      rewrite (Z.compare_antisym y1 y2), (Z.compare_antisym m1 m2),
        (Z.compare_antisym d1 d2).
      destruct (y1 ?= y2); try discriminate; simpl; try reflexivity.
      destruct (m1 ?= m2); try discriminate; simpl; try reflexivity.
      destruct (d1 ?= d2); try discriminate; reflexivity. }
    pose proof (ymd2ord_lt _ _ _ _ _ _ V2 V1 C'). lia.
Qed.

Lemma ord2ymd_year_range n :
  1 <= n <= MAXORDINAL ->
  let '(y, m, d) := ord2ymd n in 1 <= y <= 9999.
Proof.
  intros Hn.
  pose proof (ord2ymd_valid n ltac:(lia)) as V.
  destruct (ord2ymd n) as [[y m] d]. destruct V as [V E].
  pose proof (day_of_year_le _ _ _ V) as Hd.
  unfold ymd2ord in E. unfold MAXORDINAL in Hn.
  assert (b2z (is_leap y) <= 1) by (unfold b2z; destruct (is_leap y); lia).
  split.
  - destruct (Z_lt_le_dec y 1) as [Hlt|]; [exfalso | assumption].
    pose proof (days_before_year_mono y 0 ltac:(lia)).
    change (days_before_year 0) with (-366) in *. lia.
  - destruct (Z_lt_le_dec 9999 y) as [Hlt|]; [exfalso | lia].
    pose proof (days_before_year_mono 10000 y ltac:(lia)).
    change (days_before_year 10000) with 3652059 in *. lia.
Qed.


Lemma compare_app_same_length (a b s t : string) :
  String.length a = String.length b ->
  String.compare (a +:+ s) (b +:+ t)
  = lex (String.compare a b) (String.compare s t).
Proof.
  revert b. induction a as [|c a IH]; intros [|c' b] Hlen; try discriminate.
  - reflexivity.
  - simpl in *. destruct (Ascii.compare c c'); try reflexivity.
    apply IH. congruence.
Qed.

Ltac digit_cases a :=
  let H := fresh in
  assert (H : a = 0 \/ a = 1 \/ a = 2 \/ a = 3 \/ a = 4 \/ a = 5 \/ a = 6 \/
              a = 7 \/ a = 8 \/ a = 9) by lia;
  destruct H as [->|[->|[->|[->|[->|[->|[->|[->|[->| ->]]]]]]]]].

Lemma compare_digit a b :
  0 <= a <= 9 -> 0 <= b <= 9 ->
  Ascii.compare (digit a) (digit b) = (a ?= b).
Proof.
  intros Ha Hb. digit_cases a; digit_cases b; reflexivity.
Qed.

(** Comparing two numbers is comparing their quotients, then their
    remainders. *)
Lemma compare_div_mod (k x y : Z) :
  0 < k -> (x ?= y) = lex (x / k ?= y / k) (x mod k ?= y mod k).
Proof.
  intros Hk.
  pose proof (Z.div_mod x k ltac:(lia)) as Hx.
  pose proof (Z.div_mod y k ltac:(lia)) as Hy.
  pose proof (Z.mod_pos_bound x k Hk) as Bx.
  pose proof (Z.mod_pos_bound y k Hk) as By.
  unfold lex.
  destruct (Z.compare_spec (x / k) (y / k)) as [E|L|G].
  - rewrite Hx, Hy, E at 1.
    destruct (Z.compare_spec (x mod k) (y mod k));
      [apply Z.compare_eq_iff | apply Z.compare_lt_iff | apply Z.compare_gt_iff]; lia.
  - apply Z.compare_lt_iff. nia.
  - apply Z.compare_gt_iff. nia.
Qed.

Lemma compare_pad2 x y :
  0 <= x < 100 -> 0 <= y < 100 ->
  String.compare (pad2 x) (pad2 y) = (x ?= y).
Proof.
  intros Hx Hy. unfold pad2. simpl.
  rewrite !compare_digit by
    (first [ split; [apply Z.div_pos; lia | apply Z.lt_succ_r, Z.div_lt_upper_bound; lia]
           | pose proof (Z.mod_pos_bound x 10); pose proof (Z.mod_pos_bound y 10); lia ]).
  rewrite (compare_div_mod 10 x y) by lia. unfold lex.
  destruct (x / 10 ?= y / 10); try reflexivity.
  destruct (x mod 10 ?= y mod 10); reflexivity.
Qed.

Lemma length_pad2 x : String.length (pad2 x) = 2%nat.
Proof. reflexivity. Qed.

Lemma length_pad4 x : String.length (pad4 x) = 4%nat.
Proof. reflexivity. Qed.

Lemma compare_pad4 x y :
  0 <= x < 10000 -> 0 <= y < 10000 ->
  String.compare (pad4 x) (pad4 y) = (x ?= y).
Proof.
  intros Hx Hy. unfold pad4.
  rewrite compare_app_same_length by reflexivity.
  rewrite !compare_pad2 by
    (first [ split; [apply Z.div_pos; lia | apply Z.div_lt_upper_bound; lia]
           | apply Z.mod_pos_bound; lia ]).
  symmetry. apply compare_div_mod. lia.
Qed.

Lemma year_text_four_digits y : 1000 <= y -> year_text y = pad4 y.
Proof.
  intros Hy. unfold year_text.
  destruct (Z.ltb_spec y 10); [lia|].
  destruct (Z.ltb_spec y 100); [lia|].
  destruct (Z.ltb_spec y 1000); [lia|]. reflexivity.
Qed.

Lemma compare_iso_text y1 m1 d1 hh1 mm1 ss1 y2 m2 d2 hh2 mm2 ss2 :
  1000 <= y1 < 10000 -> 1000 <= y2 < 10000 ->
  0 <= m1 < 100 -> 0 <= m2 < 100 ->
  0 <= d1 < 100 -> 0 <= d2 < 100 ->
  0 <= hh1 < 100 -> 0 <= hh2 < 100 ->
  0 <= mm1 < 100 -> 0 <= mm2 < 100 ->
  0 <= ss1 < 100 -> 0 <= ss2 < 100 ->
  String.compare (iso_text y1 m1 d1 hh1 mm1 ss1) (iso_text y2 m2 d2 hh2 mm2 ss2)
  = lex (ymd_compare (y1, m1, d1) (y2, m2, d2))
      (lex (hh1 ?= hh2) (lex (mm1 ?= mm2) (ss1 ?= ss2))).
Proof.
  intros. unfold iso_text.
  rewrite !year_text_four_digits by lia.
  rewrite compare_app_same_length by reflexivity.
  rewrite compare_pad4 by lia.
  change ("-" +:+ ?s) with (String "-" s). cbn [String.compare].
  change (Ascii.compare "-" "-") with Eq. cbv iota.
  rewrite compare_app_same_length by reflexivity.
  rewrite compare_pad2 by assumption.
  change ("-" +:+ ?s) with (String "-" s). cbn [String.compare].
  change (Ascii.compare "-" "-") with Eq. cbv iota.
  rewrite compare_app_same_length by reflexivity.
  rewrite compare_pad2 by assumption.
  change ("T" +:+ ?s) with (String "T" s). cbn [String.compare].
  change (Ascii.compare "T" "T") with Eq. cbv iota.
  rewrite compare_app_same_length by reflexivity.
  rewrite compare_pad2 by assumption.
  change (":" +:+ ?s) with (String ":" s). cbn [String.compare].
  change (Ascii.compare ":" ":") with Eq. cbv iota.
  rewrite compare_app_same_length by reflexivity.
  rewrite compare_pad2 by assumption.
  change (":" +:+ ?s) with (String ":" s). cbn [String.compare].
  change (Ascii.compare ":" ":") with Eq. cbv iota.
  rewrite compare_pad2 by assumption.
  unfold ymd_compare, lex.
  destruct (y1 ?= y2), (m1 ?= m2), (d1 ?= d2); reflexivity.
Qed.

Lemma ymd_compare_refl a : ymd_compare a a = Eq.
Proof. destruct a as [[y m] d]. unfold ymd_compare. rewrite !Z.compare_refl. reflexivity. Qed.

Lemma ymd_compare_antisym a b : ymd_compare a b = CompOpp (ymd_compare b a).
Proof.
  destruct a as [[y1 m1] d1], b as [[y2 m2] d2]. unfold ymd_compare.
  rewrite (Z.compare_antisym y2 y1), (Z.compare_antisym m2 m1),
    (Z.compare_antisym d2 d1).
  destruct (y2 ?= y1), (m2 ?= m1), (d2 ?= d1); reflexivity.
Qed.

(** The order of civil dates is the order of ordinals. *)
Lemma ord2ymd_compare n1 n2 :
  1 <= n1 -> 1 <= n2 -> ymd_compare (ord2ymd n1) (ord2ymd n2) = (n1 ?= n2).
Proof.
  intros H1 H2. destruct (Z.compare_spec n1 n2) as [->|L|G].
  - apply ymd_compare_refl.
  - apply ord2ymd_lt; assumption.
  - rewrite ymd_compare_antisym, ord2ymd_lt by assumption. reflexivity.
Qed.

Lemma toordinal_seconds d : toordinal d = seconds d / 86400.
Proof.
  unfold toordinal, seconds, US_PER_DAY, US_PER_SECOND.
  rewrite Z.div_div by lia. reflexivity.
Qed.

Lemma second_of_day_seconds d :
  (micros d mod US_PER_DAY) / US_PER_SECOND = seconds d mod 86400.
Proof.
  unfold seconds, US_PER_DAY, US_PER_SECOND.
  Z.to_euclidean_division_equations. lia.
Qed.

Lemma strftime_iso_seconds d :
  strftime_iso d =
  let '(y, m, dd) := ord2ymd (seconds d / 86400) in
  let sod := seconds d mod 86400 in
  iso_text y m dd (sod / 3600) ((sod mod 3600) / 60) (sod mod 60).
Proof.
  unfold strftime_iso. rewrite toordinal_seconds, second_of_day_seconds.
  reflexivity.
Qed.

Lemma days_in_month_le y m : days_in_month y m <= 31.
Proof.
  unfold days_in_month, DAYS_IN_MONTH, b2z.
  destruct (Z.eqb_spec m 2) as [->|Hm].
  - simpl. destruct (is_leap y); simpl; lia.
  - simpl. destruct (Z.to_nat m) as [|[|[|[|[|[|[|[|[|[|[|[|[|[|k]]]]]]]]]]]]]]; simpl; lia.
Qed.

(** The years printed with four digits are those from ordinal
    [ORDINAL_Y1000] on. *)
Lemma year_four_digits_iff d :
  1000 <= year d <-> ORDINAL_Y1000 <= toordinal d.
Proof.
  unfold year, ORDINAL_Y1000. generalize (toordinal d) as n. intros n.
  destruct (Z.le_gt_cases 1 n) as [Hn|Hn].
  - pose proof (ord2ymd_valid n Hn) as V.
    destruct (ord2ymd n) as [[y m] dd]. destruct V as [V E]. cbn [fst].
    pose proof (day_of_year_le y m dd V) as D.
    pose proof (days_before_year_succ y) as S.
    unfold ymd2ord in E. split; intros H.
    + pose proof (days_before_year_mono 1000 y H) as Mo.
      change (days_before_year 1000) with 364877 in Mo. lia.
    + destruct (Z.le_gt_cases 1000 y) as [G|G]; [exact G|exfalso].
      pose proof (days_before_year_mono (y + 1) 1000 ltac:(lia)) as Mo.
      change (days_before_year 1000) with 364877 in Mo. lia.
  - split; [|lia]. intros H. exfalso. revert H. unfold ord2ymd.
    unfold DI400Y, DI100Y, DI4Y.
    set (a := n - 1).
    assert (Ha : a < 0) by (subst a; lia). clearbody a.
    assert (B400 : a / 146097 <= -1) by (Z.to_euclidean_division_equations; lia).
    assert (B100 : a mod 146097 / 36524 <= 4)
      by (Z.to_euclidean_division_equations; lia).
    assert (B4 : a mod 146097 mod 36524 / 1461 <= 24)
      by (Z.to_euclidean_division_equations; lia).
    assert (B1 : a mod 146097 mod 36524 mod 1461 / 365 <= 4)
      by (Z.to_euclidean_division_equations; lia).
    repeat match goal with
           | |- context [if ?b then _ else _] => destruct b
           end; cbn [fst]; lia.
Qed.

(** The text order of two formatted datetimes of the years 1000 to 9999
    is their order in time, at the resolution of one second. *)
Theorem strftime_iso_compare d1 d2 :
  in_range d1 -> in_range d2 -> 1000 <= year d1 -> 1000 <= year d2 ->
  String.compare (strftime_iso d1) (strftime_iso d2)
  = (seconds d1 ?= seconds d2).
Proof.
  unfold in_range, year.
  rewrite !strftime_iso_seconds, !toordinal_seconds.
  intros R1 R2 K1 K2.
  pose proof (ord2ymd_valid _ (proj1 R1)) as V1.
  pose proof (ord2ymd_valid _ (proj1 R2)) as V2.
  pose proof (ord2ymd_year_range _ R1) as Y1.
  pose proof (ord2ymd_year_range _ R2) as Y2.
  pose proof (ord2ymd_compare _ _ (proj1 R1) (proj1 R2)) as C.
  destruct (ord2ymd (seconds d1 / 86400)) as [[y1 m1] dd1].
  destruct (ord2ymd (seconds d2 / 86400)) as [[y2 m2] dd2].
  destruct V1 as [[Vm1 Vd1] _], V2 as [[Vm2 Vd2] _].
  pose proof (days_in_month_le y1 m1). pose proof (days_in_month_le y2 m2).
  cbn [fst] in K1, K2. cbv zeta.
  set (s1 := seconds d1 mod 86400). set (s2 := seconds d2 mod 86400).
  assert (B1 : 0 <= s1 < 86400) by (apply Z.mod_pos_bound; lia).
  assert (B2 : 0 <= s2 < 86400) by (apply Z.mod_pos_bound; lia).
  rewrite compare_iso_text; try lia;
    try (clearbody s1 s2; Z.to_euclidean_division_equations; lia).
  rewrite C.
  rewrite (compare_div_mod 86400 (seconds d1) (seconds d2)) by lia.
  fold s1 s2. f_equal.
  rewrite (compare_div_mod 3600 s1 s2) by lia. f_equal.
  rewrite (compare_div_mod 60 (s1 mod 3600) (s2 mod 3600)) by lia. f_equal.
  f_equal; clearbody s1 s2; Z.to_euclidean_division_equations; lia.
Qed.

End Calendar.

(** Three readings and their texts. *)

Example strftime_ex1 :
  datetime.strftime_iso (datetime.make 2024 2 29 23 59 58 123456)
  = "2024-02-29T23:59:58".
Proof. vm_compute. reflexivity. Qed.

Example strftime_ex2 :
  datetime.strftime_iso (datetime.make 1999 12 31 0 0 0 0)
  = "1999-12-31T00:00:00".
Proof. vm_compute. reflexivity. Qed.

Example strftime_ex3 :
  datetime.strftime_iso (datetime.make 9999 12 31 23 59 59 999999)
  = "9999-12-31T23:59:59"
  /\ datetime.toordinal (datetime.make 9999 12 31 23 59 59 999999)
     = datetime.MAXORDINAL.
Proof. vm_compute. split; reflexivity. Qed.

(** A year below 1000 is printed without padding. *)
Example strftime_ex4 :
  datetime.strftime_iso (datetime.make 999 12 31 23 45 0 0)
  = "999-12-31T23:45:00"
  /\ datetime.strftime_iso (datetime.make 1000 1 1 0 45 0 0)
     = "1000-01-01T00:45:00"
  /\ datetime.strftime_iso (datetime.make 1 1 1 0 0 0 0) = "1-01-01T00:00:00"
  /\ datetime.toordinal (datetime.make 1000 1 1 0 0 0 0) = datetime.ORDINAL_Y1000.
Proof. vm_compute. repeat split; reflexivity. Qed.

(** ** Computations *)

Ltac unfold_monad :=
  unfold open_write in *;
  unfold mbind, M_bind, mret, M_ret, try_except, path_exists,
    open_w, write_close, utcnow, now, now_timestamp_str, bind, ret, raise, lift, call in *.

(** Case analysis on a scrutinee that contains no other case analysis. *)
Ltac destruct_inner :=
  match goal with
  | |- context [match ?x with _ => _ end] =>
      lazymatch x with
      | context [match _ with _ => _ end] => fail
      | _ => destruct x
      end
  end.

(** ** [find_slot] *)

Section FindSlot.

Import datetime.

Variable env : Env.

Lemma manual_find_slot_eq duration_minutes timezone w :
  Manual.find_slot env duration_minutes timezone w
  = (match slot_of_reading (utc_reading env w) duration_minutes with
     | Return (start, end_) => Return (strftime_iso start, strftime_iso end_)
     | Raise e => Raise e
     end, log CallNow w).
Proof.
  unfold Manual.find_slot, slot_of_reading. unfold_monad.
  repeat destruct_inner; reflexivity.
Qed.

Lemma crew_find_slot_eq duration_minutes timezone w :
  Crew.find_slot env duration_minutes timezone w
  = (match slot_of_reading (local_reading env w) duration_minutes with
     | Return (start, end_) =>
         Return (crew_slot (strftime_iso start) (strftime_iso end_) timezone)
     | Raise e => Raise e
     end, log CallNow w).
Proof.
  unfold Crew.find_slot, slot_of_reading. unfold_monad.
  repeat destruct_inner; reflexivity.
Qed.

(** What a slot that was returned looks like: both additions passed the
    range check. *)
Lemma slot_of_reading_inv reading duration_minutes start end_ :
  slot_of_reading reading duration_minutes = Return (start, end_) ->
  micros start = micros reading + 3600 * US_PER_SECOND
  /\ micros end_ = micros start + 60 * duration_minutes * US_PER_SECOND
  /\ in_range start /\ in_range end_.
Proof.
  unfold slot_of_reading.
  change (mk_timedelta 1 0) with (Return (delta_of_micros (3600 * US_PER_SECOND))).
  unfold add, mk_timedelta, in_range. cbn [delta_micros].
  destruct (_ && _) eqn:E1; [|discriminate].
  destruct (Z.abs _ <=? _); [|discriminate]. cbn [delta_micros].
  destruct (_ && _) eqn:E2 in |- *; [|discriminate].
  intros [= <- <-]. cbn [micros] in *.
  apply andb_true_iff in E1 as [A1 B1]. apply andb_true_iff in E2 as [A2 B2].
  apply Z.ltb_lt in A1, A2. apply Z.leb_le in B1, B2.
  repeat split; lia.
Qed.

(** A slot is returned as soon as its end is a representable datetime. *)
Lemma slot_of_reading_returns reading duration_minutes :
  0 <= duration_minutes ->
  in_range reading ->
  in_range (slot_end reading duration_minutes) ->
  slot_of_reading reading duration_minutes
  = Return (of_micros (micros reading + 3600 * US_PER_SECOND),
            of_micros (micros reading + 3600 * US_PER_SECOND
                       + 60 * duration_minutes * US_PER_SECOND)).
Proof.
  intros Hd Hr He. unfold slot_of_reading.
  change (mk_timedelta 1 0) with (Return (delta_of_micros (3600 * US_PER_SECOND))).
  unfold in_range, slot_end, slot_start, plus_seconds, truncate_to_second,
    toordinal in Hr, He. cbn [micros] in Hr, He.
  unfold add, mk_timedelta, toordinal. cbn [micros delta_micros].
  unfold MAXORDINAL, MAX_DELTA_DAYS, US_PER_DAY, US_PER_SECOND in *.
  set (x := micros reading) in *. clearbody x.
  repeat match goal with
    | |- context [if ?c then _ else _] =>
        let E := fresh "E" in
        destruct c eqn:E; cbn [delta_micros micros];
        [ | exfalso;
            first [ apply andb_false_iff in E;
                    rewrite Z.ltb_ge, Z.leb_gt in E
                  | apply Z.leb_gt in E ];
            Z.to_euclidean_division_equations; lia ]
    end.
  do 3 f_equal. lia.
Qed.

(** Whatever [find_slot] raises is an [OverflowError]. *)
Lemma slot_of_reading_raises reading duration_minutes e :
  slot_of_reading reading duration_minutes = Raise e ->
  exists msg, e = OverflowError msg.
Proof.
  unfold slot_of_reading.
  change (mk_timedelta 1 0) with (Return (delta_of_micros (3600 * US_PER_SECOND))).
  unfold add, mk_timedelta.
  repeat match goal with
    | |- context [if ?c then _ else _] => destruct c
    end; intros [= <-]; eexists; reflexivity.
Qed.

(** Past the last representable datetime no slot is returned. *)
Lemma slot_of_reading_overflows reading duration_minutes :
  ~ in_range (slot_end reading duration_minutes) ->
  exists msg, slot_of_reading reading duration_minutes = Raise (OverflowError msg).
Proof.
  intros He.
  destruct (slot_of_reading reading duration_minutes) as [[start end_]|e] eqn:E.
  - exfalso. apply He.
    apply slot_of_reading_inv in E as (Hs & Hend & _ & Re).
    unfold in_range, toordinal, slot_end, slot_start, plus_seconds,
      truncate_to_second in *. cbn [micros] in *.
    unfold MAXORDINAL, US_PER_DAY, US_PER_SECOND in *.
    rewrite Hend, Hs in Re. clear Hend Hs He.
    Z.to_euclidean_division_equations. lia.
  - destruct (slot_of_reading_raises _ _ _ E) as [msg ->]. eauto.
Qed.

Lemma seconds_slot_start reading :
  seconds (of_micros (micros reading + 3600 * US_PER_SECOND))
  = seconds (slot_start reading).
Proof.
  unfold seconds, slot_start, plus_seconds, truncate_to_second, US_PER_SECOND.
  cbn [micros]. Z.to_euclidean_division_equations. lia.
Qed.

Lemma seconds_slot_end reading duration_minutes :
  seconds (of_micros (micros reading + 3600 * US_PER_SECOND
                      + 60 * duration_minutes * US_PER_SECOND))
  = seconds (slot_end reading duration_minutes).
Proof.
  unfold seconds, slot_end, slot_start, plus_seconds, truncate_to_second,
    US_PER_SECOND.
  cbn [micros]. Z.to_euclidean_division_equations. lia.
Qed.

(** The text depends on the whole seconds only. *)
Lemma strftime_iso_ext d1 d2 :
  seconds d1 = seconds d2 -> strftime_iso d1 = strftime_iso d2.
Proof. intros H. rewrite !strftime_iso_seconds, H. reflexivity. Qed.

Lemma slot_start_after reading before :
  micros before <= micros reading -> micros before < micros (slot_start reading).
Proof.
  unfold slot_start, plus_seconds, truncate_to_second, US_PER_SECOND.
  cbn [micros]. intros H.
  pose proof (Z.mod_pos_bound (micros reading) 1000000 ltac:(lia)). lia.
Qed.

(** From year 1000 on the year keeps its four digits. *)
Lemma year_four_digits_later d1 d2 :
  1000 <= year d1 -> micros d1 <= micros d2 -> 1000 <= year d2.
Proof.
  rewrite !year_four_digits_iff. unfold toordinal, US_PER_DAY, US_PER_SECOND.
  intros H1 Hle. Z.to_euclidean_division_equations. lia.
Qed.

(** The start of a returned slot is in the year of the reading, or in a
    later one; and so is the end, when the duration is not negative. *)
Lemma slot_years reading duration_minutes start end_ :
  slot_of_reading reading duration_minutes = Return (start, end_) ->
  1000 <= year reading ->
  1000 <= year start /\ (0 <= duration_minutes -> 1000 <= year end_).
Proof.
  intros H Hy. apply slot_of_reading_inv in H as (Hs & He & _ & _).
  assert (Ys : 1000 <= year start).
  { apply (year_four_digits_later reading); [exact Hy |].
    unfold US_PER_SECOND in Hs. lia. }
  split; [exact Ys |]. intros Hd.
  apply (year_four_digits_later start); [exact Ys |].
  unfold US_PER_SECOND in He. lia.
Qed.

(** The texts of a returned slot of the years 1000 to 9999 are ordered as
    0 and the duration are. *)
Lemma slot_text_order reading duration_minutes start end_ :
  slot_of_reading reading duration_minutes = Return (start, end_) ->
  1000 <= year start -> 1000 <= year end_ ->
  String.compare (strftime_iso start) (strftime_iso end_)
  = (0 ?= duration_minutes).
Proof.
  intros H Ys Ye. apply slot_of_reading_inv in H as (Hs & He & Rs & Re).
  rewrite strftime_iso_compare by assumption.
  unfold seconds. rewrite He.
  replace (micros start + 60 * duration_minutes * US_PER_SECOND)
    with (micros start + (60 * duration_minutes) * US_PER_SECOND) by lia.
  rewrite Z.div_add by (unfold US_PER_SECOND; lia).
  destruct (Z.compare_spec 0 duration_minutes);
    [apply Z.compare_eq_iff | apply Z.compare_lt_iff | apply Z.compare_gt_iff]; lia.
Qed.

End FindSlot.

(** C2 (as amended).  For every [duration_minutes >= 0] for which the end
    of the slot is still a representable datetime (not after
    9999-12-31T23:59:59), [find_slot] returns the texts of two datetimes:
    [start] is the clock reading at call time, cut to whole seconds, plus
    one hour, and [end] is [start] plus [duration_minutes] minutes; [start]
    lies strictly after any instant read before the call.  For a duration
    that takes the end past the last representable datetime, [find_slot]
    raises [OverflowError] and returns no slot.  The clock is the UTC wall
    clock in manual.py and the local wall clock in crew.py; the timezone
    label plays no part. *)
Theorem find_slot_one_hour_ahead env duration_minutes timezone w :
  0 <= duration_minutes ->
  (datetime.in_range (utc_reading env w) ->
   let start := slot_start (utc_reading env w) in
   let end_ := slot_end (utc_reading env w) duration_minutes in
   (datetime.in_range end_ ->
    Manual.find_slot env duration_minutes timezone w
    = (Return (datetime.strftime_iso start, datetime.strftime_iso end_),
       log CallNow w))
   /\ (~ datetime.in_range end_ ->
       exists msg,
         Manual.find_slot env duration_minutes timezone w
         = (Raise (OverflowError msg), log CallNow w))
   /\ forall before,
        datetime.micros before <= datetime.micros (utc_reading env w) ->
        datetime.micros before < datetime.micros start)
  /\
  (datetime.in_range (local_reading env w) ->
   let start := slot_start (local_reading env w) in
   let end_ := slot_end (local_reading env w) duration_minutes in
   (datetime.in_range end_ ->
    Crew.find_slot env duration_minutes timezone w
    = (Return
         (crew_slot (datetime.strftime_iso start) (datetime.strftime_iso end_)
            timezone),
       log CallNow w))
   /\ (~ datetime.in_range end_ ->
       exists msg,
         Crew.find_slot env duration_minutes timezone w
         = (Raise (OverflowError msg), log CallNow w))
   /\ forall before,
        datetime.micros before <= datetime.micros (local_reading env w) ->
        datetime.micros before < datetime.micros start).
Proof.
  intros Hd. split; intros Hr; cbv zeta;
    (split; [intros He | split; [intros He | apply slot_start_after]]).
  - rewrite manual_find_slot_eq, slot_of_reading_returns by assumption.
    rewrite (strftime_iso_ext _ _ (seconds_slot_start _)).
    rewrite (strftime_iso_ext _ _ (seconds_slot_end _ _)). reflexivity.
  - destruct (slot_of_reading_overflows _ _ He) as [msg E].
    exists msg. rewrite manual_find_slot_eq, E. reflexivity.
  - rewrite crew_find_slot_eq, slot_of_reading_returns by assumption.
    rewrite (strftime_iso_ext _ _ (seconds_slot_start _)).
    rewrite (strftime_iso_ext _ _ (seconds_slot_end _ _)). reflexivity.
  - destruct (slot_of_reading_overflows _ _ He) as [msg E].
    exists msg. rewrite crew_find_slot_eq, E. reflexivity.
Qed.

(** C2, the claim as stated fails: a duration of ten thousand million
    minutes is not negative, and [find_slot] raises [OverflowError] instead
    of returning a slot. *)
Lemma find_slot_overflow_example :
  0 <= 10000000000
  /\ fst (Manual.find_slot Stub.host 10000000000 "UTC" Stub.empty_disk)
     = Raise (OverflowError "date value out of range")
  /\ fst (Crew.find_slot Stub.host 10000000000 "UTC" Stub.empty_disk)
     = Raise (OverflowError "date value out of range").
Proof. split; [lia | split; vm_compute; reflexivity]. Qed.

(** C7 (as amended).  Every slot returned by [find_slot] for
    [duration_minutes > 0] has its end after its start: the two texts are
    those of two datetimes, the second [duration_minutes] minutes after the
    first, and, when the clock reading lies in year 1000 or later, the end
    text is greater than the start text as Python compares strings.  For
    the boundary value [duration_minutes = 0] the slot returned has
    [end = start]. *)
Theorem find_slot_end_after_start env duration_minutes timezone w :
  (forall start_iso end_iso w',
     Manual.find_slot env duration_minutes timezone w
       = (Return (start_iso, end_iso), w') ->
     exists start end_,
       slot_of_reading (utc_reading env w) duration_minutes = Return (start, end_)
       /\ start_iso = datetime.strftime_iso start
       /\ end_iso = datetime.strftime_iso end_
       /\ datetime.micros end_
          = datetime.micros start + duration_minutes * 60 * datetime.US_PER_SECOND
       /\ (0 < duration_minutes ->
           datetime.micros start < datetime.micros end_
           /\ (1000 <= datetime.year (utc_reading env w) ->
               String.ltb start_iso end_iso = true))
       /\ (duration_minutes = 0 -> start_iso = end_iso))
  /\
  (forall start_time end_time w',
     Crew.find_slot env duration_minutes timezone w
       = (Return (crew_slot start_time end_time timezone), w') ->
     exists start end_,
       slot_of_reading (local_reading env w) duration_minutes = Return (start, end_)
       /\ start_time = datetime.strftime_iso start
       /\ end_time = datetime.strftime_iso end_
       /\ datetime.micros end_
          = datetime.micros start + duration_minutes * 60 * datetime.US_PER_SECOND
       /\ (0 < duration_minutes ->
           datetime.micros start < datetime.micros end_
           /\ (1000 <= datetime.year (local_reading env w) ->
               String.ltb start_time end_time = true))
       /\ (duration_minutes = 0 -> start_time = end_time)).
Proof.
  assert (K : forall reading start end_,
            slot_of_reading reading duration_minutes = Return (start, end_) ->
            datetime.micros end_
            = datetime.micros start + duration_minutes * 60 * datetime.US_PER_SECOND
            /\ (0 < duration_minutes ->
                datetime.micros start < datetime.micros end_
                /\ (1000 <= datetime.year reading ->
                    String.ltb (datetime.strftime_iso start)
                      (datetime.strftime_iso end_) = true))
            /\ (duration_minutes = 0 ->
                datetime.strftime_iso start = datetime.strftime_iso end_)).
  { intros reading start end_ E.
    pose proof (slot_of_reading_inv _ _ _ _ E) as (Hs & He & _ & _).
    unfold datetime.US_PER_SECOND in *.
    split; [lia | split].
    - intros Hd. split; [lia |]. intros Hy.
      destruct (slot_years _ _ _ _ E Hy) as [Ys Ye].
      unfold String.ltb.
      rewrite (slot_text_order _ _ _ _ E Ys (Ye ltac:(lia))).
      apply Z.compare_lt_iff in Hd. rewrite Hd. reflexivity.
    - intros ->. apply strftime_iso_ext. unfold datetime.seconds.
      f_equal. lia. }
  split; intros s e w'.
  - rewrite manual_find_slot_eq.
    destruct (slot_of_reading _ _) as [[start end_]|] eqn:E; [|discriminate].
    intros [= <- <- _]. exists start, end_.
    destruct (K _ _ _ E) as (K1 & K2 & K3). auto 7.
  - rewrite crew_find_slot_eq.
    destruct (slot_of_reading _ _) as [[start end_]|] eqn:E; [|discriminate].
    intros [= <- <- _]. exists start, end_.
    destruct (K _ _ _ E) as (K1 & K2 & K3). auto 7.
Qed.

(** C7, the claim as stated fails.  At the boundary value it names, with
    [duration_minutes = 0], the slot returned has [end = start].  And the
    texts returned need not be ordered as the instants are: at
    0999-12-31T22:45:00 a one-hour slot starts at ['999-12-31T23:45:00']
    and ends at ['1000-01-01T00:45:00'], a text that Python compares as
    smaller. *)
Lemma find_slot_end_not_after_start_examples :
  (fst (Manual.find_slot Stub.host 0 "UTC" Stub.empty_disk)
   = Return ("2026-11-03T13:00:00", "2026-11-03T13:00:00")
   /\ fst (Crew.find_slot Stub.host 0 "UTC" Stub.empty_disk)
      = Return (crew_slot "2026-11-03T18:00:00" "2026-11-03T18:00:00" "UTC")
   /\ String.ltb "2026-11-03T13:00:00" "2026-11-03T13:00:00" = false
   /\ String.ltb "2026-11-03T18:00:00" "2026-11-03T18:00:00" = false)
  /\
  (fst (Manual.find_slot Stub.host_year_999 60 "UTC" Stub.empty_disk)
   = Return ("999-12-31T23:45:00", "1000-01-01T00:45:00")
   /\ fst (Crew.find_slot Stub.host_year_999 60 "UTC" Stub.empty_disk)
      = Return (crew_slot "999-12-31T23:45:00" "1000-01-01T00:45:00" "UTC")
   /\ String.ltb "999-12-31T23:45:00" "1000-01-01T00:45:00" = false).
Proof. repeat split; vm_compute; reflexivity. Qed.

(** C8, at the failing input: at one and the same instant, 12:00:00.25 UTC
    on a host five hours east of UTC, manual.py proposes 13:00-14:00 and
    crew.py proposes 18:00-19:00, both for the label "UTC". *)
Lemma find_slot_variants_differ_example :
  fst (Manual.find_slot Stub.host 60 "UTC" Stub.empty_disk)
  = Return ("2026-11-03T13:00:00", "2026-11-03T14:00:00")
  /\ fst (Crew.find_slot Stub.host 60 "UTC" Stub.empty_disk)
     = Return (crew_slot "2026-11-03T18:00:00" "2026-11-03T19:00:00" "UTC").
Proof. split; vm_compute; reflexivity. Qed.

(** On a host whose local time is UTC the two variants do propose the same
    texts. *)
Lemma find_slot_variants_agree_on_utc_host env duration_minutes timezone w :
  utcoffset (clock env w) = 0 ->
  Crew.find_slot env duration_minutes timezone w
  = (match fst (Manual.find_slot env duration_minutes timezone w) with
     | Return (start_iso, end_iso) => Return (crew_slot start_iso end_iso timezone)
     | Raise e => Raise e
     end, snd (Manual.find_slot env duration_minutes timezone w)).
Proof.
  intros H. rewrite crew_find_slot_eq, manual_find_slot_eq. cbn [fst snd].
  replace (local_reading env w) with (utc_reading env w).
  - destruct (slot_of_reading _ _) as [[s e]|]; reflexivity.
  - unfold local_reading, utc_reading. rewrite H, Z.add_0_r.
    destruct (utc (clock env w)); reflexivity.
Qed.

(** C10.  The timezone label does not influence the slot: one outcome,
    computed without the label, is what [find_slot] returns for every
    label; manual.py leaves the label out of its result and crew.py echoes
    it next to the two texts. *)
Theorem find_slot_ignores_timezone env duration_minutes w :
  (exists times w',
     forall timezone,
       Manual.find_slot env duration_minutes timezone w = (times, w'))
  /\
  (exists times w',
     forall timezone,
       Crew.find_slot env duration_minutes timezone w
       = (match times with
          | Return (start_time, end_time) =>
              Return (crew_slot start_time end_time timezone)
          | Raise e => Raise e
          end, w')).
Proof.
  split.
  - eexists _, _. intros timezone. apply manual_find_slot_eq.
  - exists (match slot_of_reading (local_reading env w) duration_minutes with
            | Return (start, end_) =>
                Return (datetime.strftime_iso start, datetime.strftime_iso end_)
            | Raise e => Raise e
            end), (log CallNow w).
    intros timezone. rewrite crew_find_slot_eq.
    destruct (slot_of_reading _ _) as [[s e]|]; reflexivity.
Qed.

(** An instance: one hour of meeting, asked for at 12:00:00.25 UTC. *)
Lemma find_slot_one_hour_ahead_witness :
  0 <= 60
  /\ datetime.in_range (utc_reading Stub.host Stub.empty_disk)
  /\ datetime.in_range (slot_end (utc_reading Stub.host Stub.empty_disk) 60)
  /\ Manual.find_slot Stub.host 60 "UTC" Stub.empty_disk
     = (Return
          (datetime.strftime_iso (slot_start (utc_reading Stub.host Stub.empty_disk)),
           datetime.strftime_iso (slot_end (utc_reading Stub.host Stub.empty_disk) 60)),
        log CallNow Stub.empty_disk).
Proof.
  assert (H0 : 0 <= 60) by lia.
  assert (H1 : datetime.in_range (utc_reading Stub.host Stub.empty_disk))
    by (vm_compute; split; discriminate).
  assert (H2 : datetime.in_range (slot_end (utc_reading Stub.host Stub.empty_disk) 60))
    by (vm_compute; split; discriminate).
  split; [exact H0 | split; [exact H1 | split; [exact H2 |]]].
  exact (proj1 (proj1 (find_slot_one_hour_ahead
                         Stub.host 60 "UTC" Stub.empty_disk H0) H1) H2).
Defined.

(** An instance: the slot 13:00-14:00 returned for sixty minutes. *)
Lemma find_slot_end_after_start_witness :
  Manual.find_slot Stub.host 60 "UTC" Stub.empty_disk
  = (Return ("2026-11-03T13:00:00", "2026-11-03T14:00:00"), log CallNow Stub.empty_disk)
  /\ 0 < 60
  /\ 1000 <= datetime.year (utc_reading Stub.host Stub.empty_disk)
  /\ String.ltb "2026-11-03T13:00:00" "2026-11-03T14:00:00" = true.
Proof.
  assert (H : Manual.find_slot Stub.host 60 "UTC" Stub.empty_disk
              = (Return ("2026-11-03T13:00:00", "2026-11-03T14:00:00"),
                 log CallNow Stub.empty_disk))
    by (vm_compute; reflexivity).
  assert (H0 : 0 < 60) by lia.
  assert (H1 : 1000 <= datetime.year (utc_reading Stub.host Stub.empty_disk))
    by (vm_compute; discriminate).
  split; [exact H | split; [exact H0 | split; [exact H1 |]]].
  destruct (proj1 (find_slot_end_after_start Stub.host 60 "UTC" Stub.empty_disk)
              _ _ _ H) as (start & end_ & _ & _ & _ & _ & Hlt & _).
  exact (proj2 (Hlt H0) H1).
Defined.

(** ** [create_calendar_event] *)

Section CreateEvent.

Variable env : Env.
Variables (summary start_time end_time : string) (attendees : list string)
  (description : option string) (timezone credentials_path token_path : string).

Local Abbreviation manual_create :=
  (Manual.create_calendar_event env summary start_time end_time attendees
     description timezone credentials_path token_path).

Local Abbreviation crew_create :=
  (Crew.create_calendar_event env summary start_time end_time attendees
     description timezone credentials_path token_path).

Local Abbreviation service :=
  (Manual.get_calendar_service env credentials_path token_path).

Local Abbreviation event :=
  (submitted_event env summary start_time end_time attendees description timezone).

Local Abbreviation inserted :=
  (after_insert env summary start_time end_time attendees description timezone).

(** The credential block of crew.py (lines 64-80) is the body of
    [get_calendar_service] of manual.py; the handler of crew.py prints the
    traceback before it returns. *)
Lemma crew_create_calendar_event_eq w :
  crew_create w
  = try_except
      (svc ← service;
       timestamp ← now_timestamp_str env;
       let body :=
         event_body summary description start_time end_time timezone
           attendees timestamp in
       created_event ← call (CallInsert "primary" body 1 "all")
                          (fun w => insert_execute env w svc body);
       ret (success_result created_event))
      (fun e =>
         call (CallPrintExc e) (fun _ => Return tt);;
         ret (error_result e)) w.
Proof.
  unfold Crew.create_calendar_event, Manual.get_calendar_service.
  unfold_monad. repeat destruct_inner; reflexivity.
Qed.

Lemma manual_create_when_service_fails w e w' :
  service w = (Raise e, w') ->
  manual_create w
  = (if isinstance_Exception e then Return (error_result e) else Raise e, w').
Proof.
  intros H.
  unfold Manual.create_calendar_event. unfold_monad.
  rewrite H. destruct (isinstance_Exception e); reflexivity.
Qed.

Lemma crew_create_when_service_fails w e w' :
  service w = (Raise e, w') ->
  crew_create w
  = if isinstance_Exception e
    then (Return (error_result e), log (CallPrintExc e) w')
    else (Raise e, w').
Proof.
  intros H. rewrite crew_create_calendar_event_eq. unfold_monad.
  rewrite H. destruct (isinstance_Exception e); reflexivity.
Qed.

Lemma manual_create_when_service_built w svc w1 :
  service w = (Return svc, w1) ->
  manual_create w
  = match insert_execute env (log CallNow w1) svc (event w1) with
    | Return created_event => (Return (success_result created_event), inserted w1)
    | Raise e =>
        (if isinstance_Exception e then Return (error_result e) else Raise e,
         inserted w1)
    end.
Proof.
  intros H.
  unfold Manual.create_calendar_event. unfold_monad.
  rewrite H. unfold after_insert, submitted_event. cbv beta iota.
  destruct (insert_execute _ _ _ _) as [r|e]; [reflexivity|].
  destruct (isinstance_Exception e); reflexivity.
Qed.

Lemma crew_create_when_service_built w svc w1 :
  service w = (Return svc, w1) ->
  crew_create w
  = match insert_execute env (log CallNow w1) svc (event w1) with
    | Return created_event => (Return (success_result created_event), inserted w1)
    | Raise e =>
        if isinstance_Exception e
        then (Return (error_result e), log (CallPrintExc e) (inserted w1))
        else (Raise e, inserted w1)
    end.
Proof.
  intros H. rewrite crew_create_calendar_event_eq.
  unfold_monad.
  rewrite H. unfold after_insert, submitted_event. cbv beta iota.
  destruct (insert_execute _ _ _ _) as [r|e]; [reflexivity|].
  destruct (isinstance_Exception e); reflexivity.
Qed.

(** *** Credential acquisition, path by path *)

Lemma service_with_valid_cache w content c :
  files w !! token_path = Some content ->
  from_authorized_user_file env w token_path = Return c ->
  valid c = true ->
  service w
  = (build env (after_load token_path w) c, log CallBuild (after_load token_path w)).
Proof.
  intros Hfile Hload Hvalid.
  unfold Manual.get_calendar_service, after_load. unfold_monad.
  rewrite Hfile. simpl. rewrite Hload. simpl. rewrite Hvalid. simpl.
  destruct (build env _ c); reflexivity.
Qed.

Lemma service_with_refreshed_cache w content c c' :
  files w !! token_path = Some content ->
  from_authorized_user_file env w token_path = Return c ->
  expired c = true ->
  truthy_str (refresh_token c) = true ->
  refresh env (after_load token_path w) c = Return c' ->
  can_save env token_path (to_json c') (refreshed token_path w) ->
  service w
  = (build env (after_refresh token_path w c') c',
     log CallBuild (after_refresh token_path w c')).
Proof.
  intros Hfile Hload Hexp Htok Hrefresh [Hopen Hwrite].
  unfold Manual.get_calendar_service, after_refresh, saved, opened, refreshed,
    after_load in *.
  unfold_monad.
  rewrite Hfile. simpl. rewrite Hload. simpl. unfold valid. rewrite Hexp, Htok.
  rewrite andb_false_r. simpl. rewrite Hrefresh. simpl.
  rewrite Hopen. simpl. rewrite Hwrite. simpl.
  destruct (build env _ c'); reflexivity.
Qed.


(** The log prefix that separates a trace from a shorter one. *)
Ltac log_prefix t base :=
  lazymatch t with
  | base => constr:(@nil Call)
  | ?c :: ?t' => let p := log_prefix t' base in constr:(c :: p)
  end.

Ltac give_new_calls :=
  cbn [snd trace log write_file];
  lazymatch goal with
  | |- exists new, calls_between ?w _ new /\ _ =>
      unfold calls_between; cbn [snd trace log write_file];
      lazymatch goal with
      | |- exists new, ?t = new ++ ?base /\ _ =>
          let p := log_prefix t base in
          exists p; repeat split; reflexivity
      end
  end.

(** Credential acquisition never submits an event. *)
Lemma service_calls w :
  exists new,
    calls_between w (snd (service w)) new /\ List.filter is_insert new = [].
Proof.
  unfold Manual.get_calendar_service. unfold_monad.
  repeat destruct_inner; give_new_calls.
Qed.

Lemma service_request_ids w :
  request_ids (trace (snd (service w))) = request_ids (trace w).
Proof.
  unfold Manual.get_calendar_service. unfold_monad.
  repeat destruct_inner; reflexivity.
Qed.

(** Publishing (reading the clock, submitting, reporting) never enters the
    interactive flow, never refreshes and leaves the disk alone. *)
Lemma manual_create_calls w :
  exists new,
    calls_between (snd (service w)) (snd (manual_create w)) new
    /\ List.filter is_interactive new = []
    /\ List.filter is_refresh new = []
    /\ files (snd (manual_create w)) = files (snd (service w)).
Proof.
  destruct (service w) as [[svc|e] w1] eqn:E.
  - rewrite (manual_create_when_service_built _ _ _ E).
    destruct (insert_execute _ _ _ _) as [r|e];
      [| destruct (isinstance_Exception e)]; unfold after_insert; give_new_calls.
  - rewrite (manual_create_when_service_fails _ _ _ E). give_new_calls.
Qed.

Lemma crew_create_calls w :
  exists new,
    calls_between (snd (service w)) (snd (crew_create w)) new
    /\ List.filter is_interactive new = []
    /\ List.filter is_refresh new = []
    /\ files (snd (crew_create w)) = files (snd (service w)).
Proof.
  destruct (service w) as [[svc|e] w1] eqn:E.
  - rewrite (crew_create_when_service_built _ _ _ E).
    destruct (insert_execute _ _ _ _) as [r|e];
      [| destruct (isinstance_Exception e)]; unfold after_insert; give_new_calls.
  - rewrite (crew_create_when_service_fails _ _ _ E).
    destruct (isinstance_Exception e); give_new_calls.
Qed.

End CreateEvent.




(** C3.  When the service was obtained and the provider's insert call
    returns an event resource, [create_calendar_event] returns exactly the
    Success record whose three fields are the resource's [htmlLink],
    [hangoutLink] and [id]; a field that the resource lacks appears as
    [None]. *)
Theorem insert_success_is_reported env summary start_time end_time attendees
    description timezone credentials_path token_path w service w1 created_event :
  Manual.get_calendar_service env credentials_path token_path w
    = (Return service, w1) ->
  insert_execute env (log CallNow w1) service
    (submitted_event env summary start_time end_time attendees description
       timezone w1)
    = Return created_event ->
  let result :=
    PyDict
      [ ("status", PyStr "success");
        ("event_link", default PyNone (created_event !! "htmlLink"));
        ("meet_link", default PyNone (created_event !! "hangoutLink"));
        ("event_id", default PyNone (created_event !! "id")) ] in
  let w2 :=
    after_insert env summary start_time end_time attendees description
      timezone w1 in
  Manual.create_calendar_event env summary start_time end_time attendees
    description timezone credentials_path token_path w = (Return result, w2)
  /\
  Crew.create_calendar_event env summary start_time end_time attendees
    description timezone credentials_path token_path w = (Return result, w2).
Proof.
  intros Hs Hi. cbv zeta. split.
  - rewrite (manual_create_when_service_built _ _ _ _ _ _ _ _ _ _ _ _ Hs), Hi.
    reflexivity.
  - rewrite (crew_create_when_service_built _ _ _ _ _ _ _ _ _ _ _ _ Hs), Hi.
    reflexivity.
Qed.



(** An instance: the resource with [htmlLink = L], [hangoutLink = M],
    [id = X] gives the Success record with [L], [M] and [X]. *)
Lemma insert_success_is_reported_witness :
  let w := Stub.disk_with "token.json" (to_json Stub.fresh) in
  let w1 := log CallBuild (log (CallLoadToken "token.json") w) in
  Manual.get_calendar_service Stub.host "./test.json" "token.json" w
    = (Return (MkService Stub.fresh), w1)
  /\ insert_execute Stub.host (log CallNow w1) (MkService Stub.fresh)
       (submitted_event Stub.host "Project Meeting" "2026-11-03T13:00:00"
          "2026-11-03T14:00:00" ["iam.abu.017@gmail.com"] None "UTC" w1)
     = Return Stub.resource
  /\ fst (Manual.create_calendar_event Stub.host "Project Meeting"
            "2026-11-03T13:00:00" "2026-11-03T14:00:00" ["iam.abu.017@gmail.com"]
            None "UTC" "./test.json" "token.json" w)
     = Return (PyDict
                 [ ("status", PyStr "success");
                   ("event_link", PyStr "L");
                   ("meet_link", PyStr "M");
                   ("event_id", PyStr "X") ]).
Proof.
  cbv zeta.
  assert (Hs : Manual.get_calendar_service Stub.host "./test.json" "token.json"
                 (Stub.disk_with "token.json" (to_json Stub.fresh))
               = (Return (MkService Stub.fresh),
                  log CallBuild
                    (log (CallLoadToken "token.json")
                       (Stub.disk_with "token.json" (to_json Stub.fresh)))))
    by (vm_compute; reflexivity).
  split; [exact Hs | split; [reflexivity |]].
  rewrite (proj1 (insert_success_is_reported Stub.host "Project Meeting"
                    "2026-11-03T13:00:00" "2026-11-03T14:00:00"
                    ["iam.abu.017@gmail.com"] None "UTC" "./test.json"
                    "token.json" _ _ _ Stub.resource Hs eq_refl)).
  vm_compute. reflexivity.
Defined.


(** C5.  Whenever the cache file exists and holds a valid credential,
    [create_calendar_event] goes through without entering the interactive
    authorization flow: among the calls that the run adds to the log there
    is no construction of an [InstalledAppFlow] and no
    [run_local_server]. *)
Theorem valid_cache_skips_interactive_flow env summary start_time end_time
    attendees description timezone credentials_path token_path w content c :
  files w !! token_path = Some content ->
  from_authorized_user_file env w token_path = Return c ->
  valid c = true ->
  (exists new,
     calls_between w
       (snd (Manual.create_calendar_event env summary start_time end_time
               attendees description timezone credentials_path token_path w))
       new
     /\ List.filter is_interactive new = [])
  /\
  (exists new,
     calls_between w
       (snd (Crew.create_calendar_event env summary start_time end_time
               attendees description timezone credentials_path token_path w))
       new
     /\ List.filter is_interactive new = []).
Proof.
  intros Hfile Hload Hvalid.
  pose proof (service_with_valid_cache env credentials_path token_path
                w content c Hfile Hload Hvalid) as Hs.
  destruct (manual_create_calls env summary start_time end_time attendees
              description timezone credentials_path token_path w)
    as (newM & HM & HiM & _ & _).
  destruct (crew_create_calls env summary start_time end_time attendees
              description timezone credentials_path token_path w)
    as (newC & HC & HiC & _ & _).
  unfold calls_between in *. rewrite Hs in HM, HC. cbn [snd] in HM, HC.
  unfold after_load in HM, HC. cbn [trace log] in HM, HC.
  split.
  - exists (newM ++ [CallBuild; CallLoadToken token_path]).
    rewrite HM, <- app_assoc, List.filter_app, HiM. split; reflexivity.
  - exists (newC ++ [CallBuild; CallLoadToken token_path]).
    rewrite HC, <- app_assoc, List.filter_app, HiC. split; reflexivity.
Qed.

(** An instance: a cache file that holds the valid credential. *)
Lemma valid_cache_skips_interactive_flow_witness :
  let w := Stub.disk_with "token.json" (to_json Stub.fresh) in
  files w !! "token.json" = Some (to_json Stub.fresh)
  /\ from_authorized_user_file Stub.host w "token.json" = Return Stub.fresh
  /\ valid Stub.fresh = true
  /\ exists new,
       calls_between w
         (snd (Manual.create_calendar_event Stub.host "Project Meeting"
                 "2026-11-03T13:00:00" "2026-11-03T14:00:00"
                 ["iam.abu.017@gmail.com"] None "UTC" "./test.json" "token.json" w))
         new
       /\ List.filter is_interactive new = [].
Proof.
  cbv zeta.
  assert (H1 : files (Stub.disk_with "token.json" (to_json Stub.fresh)) !! "token.json"
               = Some (to_json Stub.fresh)) by (vm_compute; reflexivity).
  assert (H2 : from_authorized_user_file Stub.host
                 (Stub.disk_with "token.json" (to_json Stub.fresh)) "token.json"
               = Return Stub.fresh) by (vm_compute; reflexivity).
  assert (H3 : valid Stub.fresh = true) by reflexivity.
  split; [exact H1 | split; [exact H2 | split; [exact H3 |]]].
  exact (proj1 (valid_cache_skips_interactive_flow Stub.host "Project Meeting"
                  "2026-11-03T13:00:00" "2026-11-03T14:00:00"
                  ["iam.abu.017@gmail.com"] None "UTC" "./test.json" "token.json"
                  _ _ _ H1 H2 H3)).
Defined.

(** C6 (as amended).  Whenever the cache file holds an expired credential
    that carries a refresh token, the refresh exchange succeeds, and the
    cache file can be opened for writing and written,
    [create_calendar_event] performs the refresh (the run adds one refresh
    call to the log), overwrites the cache file with the serialisation of
    the refreshed credential, and does not enter the interactive
    authorization flow.  The content of the file then differs from the
    original exactly when that serialisation differs from what the file
    held. *)
Theorem expired_cache_is_refreshed env summary start_time end_time attendees
    description timezone credentials_path token_path w content c c' :
  files w !! token_path = Some content ->
  from_authorized_user_file env w token_path = Return c ->
  expired c = true ->
  truthy_str (refresh_token c) = true ->
  refresh env (after_load token_path w) c = Return c' ->
  can_save env token_path (to_json c') (refreshed token_path w) ->
  forall w2,
    w2 = snd (Manual.create_calendar_event env summary start_time end_time
                attendees description timezone credentials_path token_path w)
    \/ w2 = snd (Crew.create_calendar_event env summary start_time end_time
                   attendees description timezone credentials_path token_path w) ->
    files w2 !! token_path = Some (to_json c')
    /\ (exists new,
          calls_between w w2 new
          /\ List.filter is_refresh new = [CallRefresh]
          /\ List.filter is_interactive new = [])
    /\ (files w2 !! token_path <> files w !! token_path <-> to_json c' <> content).
Proof.
  intros Hfile Hload Hexp Htok Hrefresh Hsave w2 Hw2.
  pose proof (service_with_refreshed_cache env credentials_path token_path
                w content c c' Hfile Hload Hexp Htok Hrefresh Hsave) as Hs.
  assert (H : exists new,
              calls_between (log CallBuild (after_refresh token_path w c')) w2 new
              /\ List.filter is_interactive new = []
              /\ List.filter is_refresh new = []
              /\ files w2 = files (log CallBuild (after_refresh token_path w c'))).
  { destruct Hw2 as [-> | ->].
    - pose proof (manual_create_calls env summary start_time end_time attendees
                    description timezone credentials_path token_path w) as H.
      rewrite Hs in H. exact H.
    - pose proof (crew_create_calls env summary start_time end_time attendees
                    description timezone credentials_path token_path w) as H.
      rewrite Hs in H. exact H. }
  destruct H as (new & Hn & Hi & Hr & Hf).
  unfold calls_between, after_refresh, saved, opened, refreshed, after_load in *.
  cbn [trace files log write_file] in Hn, Hf.
  rewrite Hf, Hfile, lookup_insert_eq.
  split; [reflexivity | split].
  - exists (new ++ [CallBuild; CallOpenWrite token_path; CallRefresh;
                    CallLoadToken token_path]).
    rewrite Hn, <- app_assoc, !List.filter_app, Hi, Hr. repeat split; reflexivity.
  - split; congruence.
Qed.

(** C6, the claim as stated fails, in two ways.  On a host where the cache
    file may be read and not written, the refresh exchange succeeds and
    the refreshed credential is not persisted: [open] raises, the Failure
    record is returned and the file holds what it held.  And where the
    file is written, its content need not differ: a refresh exchange that
    succeeds and hands back the credential with the serialisation that the
    file already held has the file rewritten with its original content. *)
Lemma refresh_not_persisted_examples :
  let w := Stub.disk_with "token.json" (to_json Stub.stale) in
  (let manual :=
     Manual.create_calendar_event Stub.host_read_only
       "Project Meeting" "2026-11-03T13:00:00" "2026-11-03T14:00:00"
       ["iam.abu.017@gmail.com"] None "UTC" "./test.json" "token.json" w in
   let crew :=
     Crew.create_calendar_event Stub.host_read_only
       "Project Meeting" "2026-11-03T13:00:00" "2026-11-03T14:00:00"
       ["iam.abu.017@gmail.com"] None "UTC" "./test.json" "./token.json"
       (Stub.disk_with "./token.json" (to_json Stub.stale)) in
   from_authorized_user_file Stub.host_read_only w "token.json"
     = Return Stub.stale
   /\ expired Stub.stale = true
   /\ refresh_token Stub.stale = Some "1//refresh"
   /\ refresh Stub.host_read_only (after_load "token.json" w) Stub.stale
      = Return Stub.fresh
   /\ open_for_writing Stub.host_read_only (refreshed "token.json" w) "token.json"
      = Raise (Stub.permission_denied "token.json")
   /\ fst manual = Return (error_result (Stub.permission_denied "token.json"))
   /\ List.filter is_refresh (trace (snd manual)) = [CallRefresh]
   /\ files (snd manual) !! "token.json" = Some (to_json Stub.stale)
   /\ fst crew = Return (error_result (Stub.permission_denied "./token.json"))
   /\ files (snd crew) !! "./token.json" = Some (to_json Stub.stale))
  /\
  (let w2 :=
     snd (Manual.create_calendar_event Stub.host_refresh_unchanged
            "Project Meeting" "2026-11-03T13:00:00" "2026-11-03T14:00:00"
            ["iam.abu.017@gmail.com"] None "UTC" "./test.json" "token.json" w) in
   from_authorized_user_file Stub.host_refresh_unchanged w "token.json"
     = Return Stub.stale
   /\ expired Stub.stale = true
   /\ refresh_token Stub.stale = Some "1//refresh"
   /\ refresh Stub.host_refresh_unchanged (after_load "token.json" w) Stub.stale
      = Return Stub.stale
   /\ can_save Stub.host_refresh_unchanged "token.json" (to_json Stub.stale)
        (refreshed "token.json" w)
   /\ List.filter is_refresh (trace w2) = [CallRefresh]
   /\ List.filter is_interactive (trace w2) = []
   /\ files w2 !! "token.json" = files w !! "token.json").
Proof. cbv zeta. repeat split; vm_compute; reflexivity. Qed.

(** An instance: the stale credential is refreshed into the fresh one and
    the cache file changes. *)
Lemma expired_cache_is_refreshed_witness :
  let w := Stub.disk_with "token.json" (to_json Stub.stale) in
  let w2 :=
    snd (Manual.create_calendar_event Stub.host "Project Meeting"
           "2026-11-03T13:00:00" "2026-11-03T14:00:00" ["iam.abu.017@gmail.com"]
           None "UTC" "./test.json" "token.json" w) in
  (files w !! "token.json" = Some (to_json Stub.stale)
   /\ from_authorized_user_file Stub.host w "token.json" = Return Stub.stale
   /\ expired Stub.stale = true
   /\ truthy_str (refresh_token Stub.stale) = true
   /\ refresh Stub.host (after_load "token.json" w) Stub.stale = Return Stub.fresh
   /\ can_save Stub.host "token.json" (to_json Stub.fresh)
        (refreshed "token.json" w))
  /\ files w2 !! "token.json" = Some (to_json Stub.fresh)
  /\ (exists new,
        calls_between w w2 new
        /\ List.filter is_refresh new = [CallRefresh]
        /\ List.filter is_interactive new = [])
  /\ (files w2 !! "token.json" <> files w !! "token.json"
      <-> to_json Stub.fresh <> to_json Stub.stale).
Proof.
  cbv zeta.
  assert (H1 : files (Stub.disk_with "token.json" (to_json Stub.stale)) !! "token.json"
               = Some (to_json Stub.stale)) by (vm_compute; reflexivity).
  assert (H2 : from_authorized_user_file Stub.host
                 (Stub.disk_with "token.json" (to_json Stub.stale)) "token.json"
               = Return Stub.stale) by (vm_compute; reflexivity).
  assert (H3 : expired Stub.stale = true) by reflexivity.
  assert (H4 : truthy_str (refresh_token Stub.stale) = true) by reflexivity.
  assert (H5 : refresh Stub.host
                 (after_load "token.json"
                    (Stub.disk_with "token.json" (to_json Stub.stale))) Stub.stale
               = Return Stub.fresh) by reflexivity.
  assert (H6 : can_save Stub.host "token.json" (to_json Stub.fresh)
                 (refreshed "token.json"
                    (Stub.disk_with "token.json" (to_json Stub.stale))))
    by (split; reflexivity).
  split; [repeat split; assumption |].
  exact (expired_cache_is_refreshed Stub.host "Project Meeting"
           "2026-11-03T13:00:00" "2026-11-03T14:00:00" ["iam.abu.017@gmail.com"]
           None "UTC" "./test.json" "token.json" _ _ _ _ H1 H2 H3 H4 H5 H6
           _ (or_introl eq_refl)).
Defined.

(** The request identifier of a submitted event. *)
Lemma request_id_of_event_body summary description start_time end_time timezone
    attendees timestamp :
  request_id_of
    (event_body summary description start_time end_time timezone attendees
       timestamp)
  = Some (PyStr ("event_" +:+ timestamp)).
Proof. reflexivity. Qed.

(** C9 (as amended).  For every two consecutive successful calls to
    [create_calendar_event], the request identifier of each call is
    ["event_"] followed by the text of the clock reading of that call, so
    the two identifiers are distinct exactly when the two readings give
    different texts; two calls that fall within the same clock tick submit
    the same identifier. *)
Theorem request_ids_follow_the_clock env
    summary1 start1 end1 attendees1 description1 timezone1 credentials1 token1
    summary2 start2 end2 attendees2 description2 timezone2 credentials2 token2
    w service1 w1 created1 service2 w2 created2 :
  let wa :=
    after_insert env summary1 start1 end1 attendees1 description1 timezone1 w1 in
  let wb :=
    after_insert env summary2 start2 end2 attendees2 description2 timezone2 w2 in
  let id1 := PyStr ("event_" +:+ timestamp_str env (clock env w1)) in
  let id2 := PyStr ("event_" +:+ timestamp_str env (clock env w2)) in
  (* the first call succeeds *)
  Manual.get_calendar_service env credentials1 token1 w = (Return service1, w1) ->
  insert_execute env (log CallNow w1) service1
    (submitted_event env summary1 start1 end1 attendees1 description1 timezone1 w1)
    = Return created1 ->
  (* the second call, made in the world the first one left, succeeds *)
  Manual.get_calendar_service env credentials2 token2 wa = (Return service2, w2) ->
  insert_execute env (log CallNow w2) service2
    (submitted_event env summary2 start2 end2 attendees2 description2 timezone2 w2)
    = Return created2 ->
  (Manual.create_calendar_event env summary1 start1 end1 attendees1 description1
     timezone1 credentials1 token1 w = (Return (success_result created1), wa)
   /\ Manual.create_calendar_event env summary2 start2 end2 attendees2
        description2 timezone2 credentials2 token2 wa
      = (Return (success_result created2), wb))
  /\
  (Crew.create_calendar_event env summary1 start1 end1 attendees1 description1
     timezone1 credentials1 token1 w = (Return (success_result created1), wa)
   /\ Crew.create_calendar_event env summary2 start2 end2 attendees2
        description2 timezone2 credentials2 token2 wa
      = (Return (success_result created2), wb))
  /\ request_ids (trace wb) = Some id2 :: Some id1 :: request_ids (trace w)
  /\ (id1 <> id2 <->
      timestamp_str env (clock env w1) <> timestamp_str env (clock env w2)).
Proof.
  cbv zeta. intros Hs1 Hi1 Hs2 Hi2. repeat split.
  - rewrite (manual_create_when_service_built _ _ _ _ _ _ _ _ _ _ _ _ Hs1), Hi1.
    reflexivity.
  - rewrite (manual_create_when_service_built _ _ _ _ _ _ _ _ _ _ _ _ Hs2), Hi2.
    reflexivity.
  - rewrite (crew_create_when_service_built _ _ _ _ _ _ _ _ _ _ _ _ Hs1), Hi1.
    reflexivity.
  - rewrite (crew_create_when_service_built _ _ _ _ _ _ _ _ _ _ _ _ Hs2), Hi2.
    reflexivity.
  - pose proof (service_request_ids env credentials1 token1 w) as R1.
    pose proof (service_request_ids env credentials2 token2
                  (after_insert env summary1 start1 end1 attendees1 description1
                     timezone1 w1)) as R2.
    rewrite Hs1 in R1. rewrite Hs2 in R2. cbn [snd] in R1, R2.
    unfold after_insert, submitted_event, request_ids in *.
    cbn [trace log flat_map app] in *.
    rewrite !request_id_of_event_body. rewrite R2, R1. reflexivity.
  - intros H E. apply H. rewrite E. reflexivity.
  - intros H E. apply H. injection E as E. exact E.
Qed.

(** C9, the claim as stated fails: two consecutive successful calls that
    read the same clock tick submit the same request identifier. *)
Lemma same_tick_same_request_id_example :
  let w := Stub.disk_with "token.json" (to_json Stub.fresh) in
  let call1 :=
    Manual.create_calendar_event Stub.host "Project Meeting"
      "2026-11-03T13:00:00" "2026-11-03T14:00:00" ["iam.abu.017@gmail.com"]
      None "UTC" "./test.json" "token.json" w in
  let call2 :=
    Manual.create_calendar_event Stub.host "Project Review"
      "2026-11-03T15:00:00" "2026-11-03T16:00:00" ["iam.abu.017@gmail.com"]
      None "UTC" "./test.json" "token.json" (snd call1) in
  fst call1 = Return (success_result Stub.resource)
  /\ fst call2 = Return (success_result Stub.resource)
  /\ request_ids (trace (snd call2))
     = [ Some (PyStr "event_1793707200.25"); Some (PyStr "event_1793707200.25") ].
Proof. cbv zeta. repeat split; vm_compute; reflexivity. Qed.

(** An instance: with a clock that runs, the two identifiers differ. *)
Lemma request_ids_follow_the_clock_witness :
  let w := Stub.disk_with "token.json" (to_json Stub.fresh) in
  let w1 := log CallBuild (log (CallLoadToken "token.json") w) in
  let wa :=
    after_insert Stub.host_running "Project Meeting" "2026-11-03T13:00:00"
      "2026-11-03T14:00:00" ["iam.abu.017@gmail.com"] None "UTC" w1 in
  let w2 := log CallBuild (log (CallLoadToken "token.json") wa) in
  let wb :=
    after_insert Stub.host_running "Project Review" "2026-11-03T15:00:00"
      "2026-11-03T16:00:00" ["iam.abu.017@gmail.com"] None "UTC" w2 in
  (Manual.get_calendar_service Stub.host_running "./test.json" "token.json" w
   = (Return (MkService Stub.fresh), w1)
   /\ Manual.get_calendar_service Stub.host_running "./test.json" "token.json" wa
      = (Return (MkService Stub.fresh), w2))
  /\ request_ids (trace wb)
     = [ Some (PyStr "event_1793707200.256"); Some (PyStr "event_1793707200.252") ].
Proof.
  cbv zeta.
  assert (H1 : Manual.get_calendar_service Stub.host_running "./test.json"
                 "token.json" (Stub.disk_with "token.json" (to_json Stub.fresh))
               = (Return (MkService Stub.fresh),
                  log CallBuild
                    (log (CallLoadToken "token.json")
                       (Stub.disk_with "token.json" (to_json Stub.fresh)))))
    by (vm_compute; reflexivity).
  assert (H2 : Manual.get_calendar_service Stub.host_running "./test.json"
                 "token.json"
                 (after_insert Stub.host_running "Project Meeting"
                    "2026-11-03T13:00:00" "2026-11-03T14:00:00"
                    ["iam.abu.017@gmail.com"] None "UTC"
                    (log CallBuild
                       (log (CallLoadToken "token.json")
                          (Stub.disk_with "token.json" (to_json Stub.fresh)))))
               = (Return (MkService Stub.fresh),
                  log CallBuild
                    (log (CallLoadToken "token.json")
                       (after_insert Stub.host_running "Project Meeting"
                          "2026-11-03T13:00:00" "2026-11-03T14:00:00"
                          ["iam.abu.017@gmail.com"] None "UTC"
                          (log CallBuild
                             (log (CallLoadToken "token.json")
                                (Stub.disk_with "token.json"
                                   (to_json Stub.fresh))))))))
    by (vm_compute; reflexivity).
  split; [split; [exact H1 | exact H2] |].
  rewrite (proj1 (proj2 (proj2 (request_ids_follow_the_clock Stub.host_running
             "Project Meeting" "2026-11-03T13:00:00" "2026-11-03T14:00:00"
             ["iam.abu.017@gmail.com"] None "UTC" "./test.json" "token.json"
             "Project Review" "2026-11-03T15:00:00" "2026-11-03T16:00:00"
             ["iam.abu.017@gmail.com"] None "UTC" "./test.json" "token.json"
             _ _ _ Stub.resource _ _ Stub.resource H1 eq_refl H2 eq_refl)))).
  vm_compute. reflexivity.
Defined.

(** * Further properties *)

(** The calls that a trace has on top of a shorter one. *)
Ltac trace_prefix t base :=
  lazymatch t with
  | base => constr:(@nil Call)
  | ?c :: ?t' => let p := trace_prefix t' base in constr:(c :: p)
  end.

(** Settles [exists new, calls_between w w' new /\ ...] when both traces are
    explicit. *)
Ltac exhibit_calls :=
  unfold calls_between; cbn [snd trace log write_file];
  lazymatch goal with
  | |- exists new, ?t = new ++ ?base /\ _ =>
      let p := trace_prefix t base in
      exists p; repeat split; reflexivity
  end.

(** ** Credential acquisition: the remaining paths *)

Section Acquisition.

Variable env : Env.
Variables (summary start_time end_time : string) (attendees : list string)
  (description : option string) (timezone credentials_path token_path : string).

Local Abbreviation manual_create :=
  (Manual.create_calendar_event env summary start_time end_time attendees
     description timezone credentials_path token_path).

Local Abbreviation crew_create :=
  (Crew.create_calendar_event env summary start_time end_time attendees
     description timezone credentials_path token_path).

Local Abbreviation service :=
  (Manual.get_calendar_service env credentials_path token_path).

(** What the cache can yield: nothing, because there is no file, or what the
    file parses to. *)
Lemma load_cached_inv w creds w0 :
  load_cached env token_path w = (Return creds, w0) ->
  (files w !! token_path = None /\ creds = None /\ w0 = w)
  \/ (exists content c,
        files w !! token_path = Some content
        /\ from_authorized_user_file env w token_path = Return c
        /\ creds = Some c /\ w0 = after_load token_path w).
Proof.
  unfold load_cached, after_load. unfold_monad.
  destruct (files w !! token_path) as [content|] eqn:F; simpl.
  - destruct (from_authorized_user_file env w token_path) as [c|e] eqn:L;
      intros [= <- <-]. right. eauto 6.
  - intros [= <- <-]. left. auto.
Qed.

Lemma service_with_login w creds w0 c :
  load_cached env token_path w = (Return creds, w0) ->
  no_valid_credentials creds = true ->
  refreshable creds = false ->
  from_client_secrets_file env w0 credentials_path = Return tt ->
  run_local_server env (log (CallClientSecrets credentials_path) w0) = Return c ->
  can_save env token_path (to_json c) (logged_in credentials_path w0) ->
  service w
  = (build env (after_login credentials_path token_path w0 c) c,
     log CallBuild (after_login credentials_path token_path w0 c)).
Proof.
  intros Hl Hn Hr Hs Hc [Hopen Hwrite].
  apply load_cached_inv in Hl
    as [(F & -> & ->) | (content & c0 & F & L & -> & ->)];
    unfold Manual.get_calendar_service, after_login, saved, opened, logged_in,
      after_load in *;
    unfold_monad; rewrite F; simpl; rewrite ?L; simpl in *;
    rewrite ?Hn, ?Hr; simpl; rewrite Hs, Hc; simpl;
    rewrite Hopen; simpl; rewrite Hwrite; simpl;
    destruct (build env _ c); reflexivity.
Qed.





(** Credential acquisition opens at most one file for writing, under the
    path [token_path], and changes no file when it opens none. *)
Lemma service_opens w :
  exists new,
    calls_between w (snd (service w)) new
    /\ (List.filter is_open_write new = []
        \/ List.filter is_open_write new = [CallOpenWrite token_path])
    /\ (List.filter is_open_write new = [] -> files (snd (service w)) = files w).
Proof.
  unfold Manual.get_calendar_service. unfold_monad.
  repeat destruct_inner;
    unfold calls_between; cbn [snd trace files log write_file];
    lazymatch goal with
    | |- exists new, ?t = new ++ ?base /\ _ =>
        let p := trace_prefix t base in
        exists p; split;
        [ reflexivity
        | split;
          [ first [left; reflexivity | right; reflexivity]
          | intros H; first [reflexivity | discriminate H] ] ]
    end.
Qed.

(** Credential acquisition does not read the clock. *)
Lemma service_reads_no_clock w :
  exists new,
    calls_between w (snd (service w)) new /\ List.filter is_now new = [].
Proof.
  unfold Manual.get_calendar_service. unfold_monad.
  repeat destruct_inner; exhibit_calls.
Qed.

End Acquisition.

(** ** [create_calendar_event]: outcomes, log and disk *)

Section Outcomes.

Variable env : Env.
Variables (summary start_time end_time : string) (attendees : list string)
  (description : option string) (timezone credentials_path token_path : string).

Local Abbreviation manual_create :=
  (Manual.create_calendar_event env summary start_time end_time attendees
     description timezone credentials_path token_path).

Local Abbreviation crew_create :=
  (Crew.create_calendar_event env summary start_time end_time attendees
     description timezone credentials_path token_path).

Local Abbreviation service :=
  (Manual.get_calendar_service env credentials_path token_path).

Local Abbreviation event :=
  (submitted_event env summary start_time end_time attendees description timezone).





(** X9.  The provider is contacted once when the service was obtained,
    whatever it answers, and not at all otherwise; the clock is read once,
    for the request identifier, and only when the service was obtained.
    The one insert call is addressed to the calendar ['primary'], with
    [conferenceDataVersion=1] and [sendUpdates='all']. *)
Theorem create_calendar_event_inserts_once w :
  let manual :=
    Manual.create_calendar_event env summary start_time end_time attendees
      description timezone credentials_path token_path w in
  let crew :=
    Crew.create_calendar_event env summary start_time end_time attendees
      description timezone credentials_path token_path w in
  forall w2,
    w2 = snd manual \/ w2 = snd crew ->
    exists new,
      calls_between w w2 new
      /\ match Manual.get_calendar_service env credentials_path token_path w with
         | (Return _, w1) =>
             List.filter is_insert new
             = [CallInsert "primary"
                  (submitted_event env summary start_time end_time attendees
                     description timezone w1) 1 "all"]
             /\ List.filter is_now new = [CallNow]
         | (Raise _, _) =>
             List.filter is_insert new = [] /\ List.filter is_now new = []
         end.
Proof.
  cbv zeta.
  intros w2 Hw2.
  destruct (service_calls env credentials_path token_path w) as (n1 & Hn1 & Hi1).
  destruct (service_reads_no_clock env credentials_path token_path w)
    as (n1' & Hn1' & Hc1).
  assert (n1' = n1) as ->.
  { unfold calls_between in *. rewrite Hn1 in Hn1'.
    apply app_inv_tail in Hn1'. congruence. }
  unfold calls_between in *.
  destruct (service w) as [[svc|e] w1] eqn:E; cbn [snd] in *.
  - rewrite (manual_create_when_service_built _ _ _ _ _ _ _ _ _ _ _ _ E),
      (crew_create_when_service_built _ _ _ _ _ _ _ _ _ _ _ _ E) in Hw2.
    destruct (insert_execute _ _ _ _) as [r|e];
      [| destruct (isinstance_Exception e)];
      destruct Hw2 as [-> | ->]; unfold after_insert; cbn [snd trace log];
      rewrite Hn1;
      first [ exists (CallInsert "primary" (event w1) 1 "all" :: CallNow :: n1);
              cbn; rewrite Hi1, Hc1; repeat split; reflexivity
            | exists (CallPrintExc e :: CallInsert "primary" (event w1) 1 "all"
                        :: CallNow :: n1);
              cbn; rewrite Hi1, Hc1; repeat split; reflexivity ].
  - rewrite (manual_create_when_service_fails _ _ _ _ _ _ _ _ _ _ _ _ E),
      (crew_create_when_service_fails _ _ _ _ _ _ _ _ _ _ _ _ E) in Hw2.
    destruct (isinstance_Exception e);
      destruct Hw2 as [-> | ->]; cbn [snd trace log]; rewrite Hn1;
      first [ exists n1; split; [reflexivity | split; assumption]
            | exists (CallPrintExc e :: n1); cbn; rewrite Hi1, Hc1;
              repeat split; reflexivity ].
Qed.

(** What follows credential acquisition, in either variant, opens no
    file and leaves the disk alone. *)
Lemma create_opens_nothing_after_service w w2 :
  w2 = snd (manual_create w) \/ w2 = snd (crew_create w) ->
  exists new,
    calls_between (snd (service w)) w2 new
    /\ List.filter is_open_write new = []
    /\ files w2 = files (snd (service w)).
Proof.
  intros Hw2. destruct (service w) as [[svc|e] w1] eqn:E.
  - rewrite (manual_create_when_service_built _ _ _ _ _ _ _ _ _ _ _ _ E),
      (crew_create_when_service_built _ _ _ _ _ _ _ _ _ _ _ _ E) in Hw2.
    destruct (insert_execute _ _ _ _) as [r|e];
      [| destruct (isinstance_Exception e)];
      destruct Hw2 as [-> | ->]; unfold after_insert; exhibit_calls.
  - rewrite (manual_create_when_service_fails _ _ _ _ _ _ _ _ _ _ _ _ E),
      (crew_create_when_service_fails _ _ _ _ _ _ _ _ _ _ _ _ E) in Hw2.
    destruct (isinstance_Exception e); destruct Hw2 as [-> | ->]; exhibit_calls.
Qed.

(** X8.  A call opens at most one file for writing, and opens it under
    the path that it was given as [token_path]; a call that opens none
    leaves every file as it was. *)
Theorem only_the_cache_path_is_opened_for_writing w :
  let manual :=
    Manual.create_calendar_event env summary start_time end_time attendees
      description timezone credentials_path token_path w in
  let crew :=
    Crew.create_calendar_event env summary start_time end_time attendees
      description timezone credentials_path token_path w in
  forall w2,
    w2 = snd manual \/ w2 = snd crew ->
    exists new,
      calls_between w w2 new
      /\ (List.filter is_open_write new = []
          \/ List.filter is_open_write new = [CallOpenWrite token_path])
      /\ (List.filter is_open_write new = [] -> files w2 = files w).
Proof.
  cbv zeta. intros w2 Hw2.
  destruct (service_opens env credentials_path token_path w)
    as (n1 & Hn1 & Ho1 & Hf1).
  destruct (create_opens_nothing_after_service w w2 Hw2) as (n2 & Hn2 & Ho2 & Hf2).
  unfold calls_between in *.
  exists (n2 ++ n1).
  rewrite Hn2, Hn1, app_assoc, List.filter_app, Ho2. cbn [app].
  split; [reflexivity | split; [exact Ho1 |]].
  intros H. rewrite Hf2. apply Hf1, H.
Qed.

End Outcomes.

(** ** [create_calendar_event]: the credential paths *)

Section Paths.

Variable env : Env.
Variables (summary start_time end_time : string) (attendees : list string)
  (description : option string) (timezone credentials_path token_path : string).

Local Abbreviation manual_create :=
  (Manual.create_calendar_event env summary start_time end_time attendees
     description timezone credentials_path token_path).

Local Abbreviation crew_create :=
  (Crew.create_calendar_event env summary start_time end_time attendees
     description timezone credentials_path token_path).

Local Abbreviation service :=
  (Manual.get_calendar_service env credentials_path token_path).

(** What follows credential acquisition, in either variant, neither
    enters the interactive flow nor refreshes nor loads nor writes. *)
Lemma create_after_service w w2 :
  w2 = snd (manual_create w) \/ w2 = snd (crew_create w) ->
  exists new,
    calls_between (snd (service w)) w2 new
    /\ List.filter is_interactive new = []
    /\ List.filter is_refresh new = []
    /\ List.filter is_load_token new = []
    /\ files w2 = files (snd (service w)).
Proof.
  intros Hw2. destruct (service w) as [[svc|e] w1] eqn:E.
  - rewrite (manual_create_when_service_built _ _ _ _ _ _ _ _ _ _ _ _ E),
      (crew_create_when_service_built _ _ _ _ _ _ _ _ _ _ _ _ E) in Hw2.
    destruct (insert_execute _ _ _ _) as [r|e];
      [| destruct (isinstance_Exception e)];
      destruct Hw2 as [-> | ->]; unfold after_insert; exhibit_calls.
  - rewrite (manual_create_when_service_fails _ _ _ _ _ _ _ _ _ _ _ _ E),
      (crew_create_when_service_fails _ _ _ _ _ _ _ _ _ _ _ _ E) in Hw2.
    destruct (isinstance_Exception e); destruct Hw2 as [-> | ->]; exhibit_calls.
Qed.


(** X1.  Whenever the cache yields no valid credential and none that can
    be refreshed (no cache file, or a credential that is invalid without
    being expired, or one without a refresh token), the interactive
    authorization flow goes through, and the cache file can be opened for
    writing and written, [create_calendar_event] enters that flow once,
    does not refresh, and writes the serialisation of the new credential
    to the cache file, whatever happens afterwards. *)
Theorem login_when_nothing_usable_is_cached w creds w0 c :
  let manual :=
    Manual.create_calendar_event env summary start_time end_time attendees
      description timezone credentials_path token_path w in
  let crew :=
    Crew.create_calendar_event env summary start_time end_time attendees
      description timezone credentials_path token_path w in
  load_cached env token_path w = (Return creds, w0) ->
  no_valid_credentials creds = true ->
  refreshable creds = false ->
  from_client_secrets_file env w0 credentials_path = Return tt ->
  run_local_server env (log (CallClientSecrets credentials_path) w0) = Return c ->
  can_save env token_path (to_json c) (logged_in credentials_path w0) ->
  forall w2,
    w2 = snd manual \/ w2 = snd crew ->
    files w2 !! token_path = Some (to_json c)
    /\ exists new,
         calls_between w0 w2 new
         /\ List.filter is_interactive new
            = [CallRunLocalServer; CallClientSecrets credentials_path]
         /\ List.filter is_refresh new = [].
Proof.
  cbv zeta.
  intros Hl Hn Hr Hs Hc Hsave w2 Hw2.
  pose proof (service_with_login env credentials_path token_path
                w creds w0 c Hl Hn Hr Hs Hc Hsave) as E.
  destruct (create_after_service w w2 Hw2) as (new & Hnew & Hi & Hf & _ & Hfiles).
  rewrite E in Hnew, Hfiles.
  unfold calls_between, after_login, saved, opened, logged_in in *.
  cbn [snd trace files log write_file] in Hnew, Hfiles.
  rewrite Hfiles, lookup_insert_eq. split; [reflexivity |].
  exists (new ++ [CallBuild; CallOpenWrite token_path; CallRunLocalServer;
                  CallClientSecrets credentials_path]).
  rewrite Hnew, <- app_assoc, !List.filter_app, Hi, Hf. repeat split; reflexivity.
Qed.

(** X2.  An empty refresh token counts as no refresh token: with an
    expired credential whose refresh token is absent or the empty string,
    no refresh is attempted and the interactive flow is entered instead;
    its credential is written to the cache file when that file can be
    opened for writing and written. *)
Theorem empty_refresh_token_means_login w content c c' :
  let manual :=
    Manual.create_calendar_event env summary start_time end_time attendees
      description timezone credentials_path token_path w in
  let crew :=
    Crew.create_calendar_event env summary start_time end_time attendees
      description timezone credentials_path token_path w in
  files w !! token_path = Some content ->
  from_authorized_user_file env w token_path = Return c ->
  expired c = true ->
  refresh_token c = None \/ refresh_token c = Some "" ->
  from_client_secrets_file env (after_load token_path w) credentials_path
    = Return tt ->
  run_local_server env
    (log (CallClientSecrets credentials_path) (after_load token_path w))
    = Return c' ->
  can_save env token_path (to_json c')
    (logged_in credentials_path (after_load token_path w)) ->
  forall w2,
    w2 = snd manual \/ w2 = snd crew ->
    files w2 !! token_path = Some (to_json c')
    /\ exists new,
         calls_between w w2 new
         /\ List.filter is_refresh new = []
         /\ List.filter is_interactive new
            = [CallRunLocalServer; CallClientSecrets credentials_path].
Proof.
  cbv zeta.
  intros Hfile Hload Hexp Htok Hs Hc Hsave w2 Hw2.
  assert (Hl : load_cached env token_path w
               = (Return (Some c), after_load token_path w)).
  { unfold load_cached, after_load. unfold_monad.
    rewrite Hfile. simpl. rewrite Hload. reflexivity. }
  assert (Hn : no_valid_credentials (Some c) = true).
  { unfold no_valid_credentials, valid. rewrite Hexp, andb_false_r. reflexivity. }
  assert (Hr : refreshable (Some c) = false).
  { unfold refreshable. destruct Htok as [-> | ->]; rewrite Hexp; reflexivity. }
  pose proof (service_with_login env credentials_path token_path
                w _ _ c' Hl Hn Hr Hs Hc Hsave) as E.
  destruct (create_after_service w w2 Hw2) as (new & Hnew & Hi & Hf & _ & Hfiles).
  rewrite E in Hnew, Hfiles.
  unfold calls_between, after_login, saved, opened, logged_in, after_load in *.
  cbn [snd trace files log write_file] in Hnew, Hfiles.
  rewrite Hfiles, lookup_insert_eq. split; [reflexivity |].
  exists (new ++ [CallBuild; CallOpenWrite token_path; CallRunLocalServer;
                  CallClientSecrets credentials_path; CallLoadToken token_path]).
  rewrite Hnew, <- app_assoc, !List.filter_app, Hi, Hf. repeat split; reflexivity.
Qed.

(** X3.  With a valid credential in the cache, [create_calendar_event]
    leaves every file as it was (the cache file is not rewritten), loads
    the cache once and attempts no refresh. *)
Theorem valid_cache_leaves_disk_alone w content c :
  let manual :=
    Manual.create_calendar_event env summary start_time end_time attendees
      description timezone credentials_path token_path w in
  let crew :=
    Crew.create_calendar_event env summary start_time end_time attendees
      description timezone credentials_path token_path w in
  files w !! token_path = Some content ->
  from_authorized_user_file env w token_path = Return c ->
  valid c = true ->
  forall w2,
    w2 = snd manual \/ w2 = snd crew ->
    files w2 = files w
    /\ exists new,
         calls_between w w2 new
         /\ List.filter is_load_token new = [CallLoadToken token_path]
         /\ List.filter is_refresh new = [].
Proof.
  cbv zeta.
  intros Hfile Hload Hvalid w2 Hw2.
  pose proof (service_with_valid_cache env credentials_path token_path
                w content c Hfile Hload Hvalid) as E.
  destruct (create_after_service w w2 Hw2) as (new & Hnew & _ & Hf & Hld & Hfiles).
  rewrite E in Hnew, Hfiles. unfold calls_between, after_load in *.
  cbn [snd trace files log] in Hnew, Hfiles.
  split; [exact Hfiles |].
  exists (new ++ [CallBuild; CallLoadToken token_path]).
  rewrite Hnew, <- app_assoc, !List.filter_app, Hld, Hf. repeat split; reflexivity.
Qed.





End Paths.

(** X11.  The cache does what it is for: after a run that went through the
    interactive flow and could open the cache file for writing and write
    it, the cache file holds the serialisation of the new credential, and a
    following run that reads a valid credential back from it neither enters
    the interactive flow nor opens the file for writing again. *)
Theorem second_run_reuses_the_cache env
    summary1 start1 end1 attendees1 description1 timezone1 credentials1
    summary2 start2 end2 attendees2 description2 timezone2 credentials2
    token_path w creds w0 c wa c2 :
  (* the first run logs in *)
  load_cached env token_path w = (Return creds, w0) ->
  no_valid_credentials creds = true ->
  refreshable creds = false ->
  from_client_secrets_file env w0 credentials1 = Return tt ->
  run_local_server env (log (CallClientSecrets credentials1) w0) = Return c ->
  can_save env token_path (to_json c) (logged_in credentials1 w0) ->
  wa = snd (Manual.create_calendar_event env summary1 start1 end1 attendees1
              description1 timezone1 credentials1 token_path w)
  \/ wa = snd (Crew.create_calendar_event env summary1 start1 end1 attendees1
                 description1 timezone1 credentials1 token_path w) ->
  (* the second run reads a valid credential back *)
  from_authorized_user_file env wa token_path = Return c2 ->
  valid c2 = true ->
  forall wb,
    wb = snd (Manual.create_calendar_event env summary2 start2 end2 attendees2
                description2 timezone2 credentials2 token_path wa)
    \/ wb = snd (Crew.create_calendar_event env summary2 start2 end2 attendees2
                   description2 timezone2 credentials2 token_path wa) ->
    files wa !! token_path = Some (to_json c)
    /\ files wb = files wa
    /\ exists new,
         calls_between wa wb new /\ List.filter is_interactive new = [].
Proof.
  intros Hl Hn Hr Hs Hc Hsave Hwa Hload Hvalid wb Hwb.
  pose proof (service_with_login env credentials1 token_path
                w creds w0 c Hl Hn Hr Hs Hc Hsave) as E1.
  destruct (create_after_service env summary1 start1 end1 attendees1
              description1 timezone1 credentials1 token_path w wa Hwa)
    as (new1 & _ & _ & _ & _ & Hfa).
  rewrite E1 in Hfa. unfold after_login, saved, opened, logged_in in Hfa.
  cbn [snd files log write_file] in Hfa.
  assert (Hfile : files wa !! token_path = Some (to_json c))
    by (rewrite Hfa; apply lookup_insert_eq).
  pose proof (service_with_valid_cache env credentials2 token_path
                wa _ c2 Hfile Hload Hvalid) as E2.
  destruct (create_after_service env summary2 start2 end2 attendees2
              description2 timezone2 credentials2 token_path wa wb Hwb)
    as (new2 & Hnew2 & Hi2 & _ & _ & Hfb).
  rewrite E2 in Hnew2, Hfb. unfold calls_between, after_load in *.
  cbn [snd trace files log] in Hnew2, Hfb.
  split; [exact Hfile | split; [exact Hfb |]].
  exists (new2 ++ [CallBuild; CallLoadToken token_path]).
  rewrite Hnew2, <- app_assoc, List.filter_app, Hi2. split; reflexivity.
Qed.

(** ** [find_slot]: further properties *)

(** Two slots for one reading start together, and their ends, when they
    lie in the years 1000 to 9999, have their texts ordered as the
    durations are. *)
Lemma slots_of_one_reading reading d1 d2 start1 end1 start2 end2 :
  slot_of_reading reading d1 = Return (start1, end1) ->
  slot_of_reading reading d2 = Return (start2, end2) ->
  start1 = start2
  /\ (1000 <= datetime.year end1 -> 1000 <= datetime.year end2 ->
      String.compare (datetime.strftime_iso end1) (datetime.strftime_iso end2)
      = (d1 ?= d2)).
Proof.
  intros H1 H2.
  apply slot_of_reading_inv in H1 as (Hs1 & He1 & _ & R1).
  apply slot_of_reading_inv in H2 as (Hs2 & He2 & _ & R2).
  assert (start1 = start2) as <-.
  { destruct start1, start2. cbn [datetime.micros] in *. congruence. }
  split; [reflexivity |]. intros Y1 Y2.
  rewrite strftime_iso_compare by assumption.
  unfold datetime.seconds. rewrite He1, He2.
  replace (datetime.micros start1 + 60 * d1 * datetime.US_PER_SECOND)
    with (datetime.micros start1 + (60 * d1) * datetime.US_PER_SECOND) by lia.
  replace (datetime.micros start1 + 60 * d2 * datetime.US_PER_SECOND)
    with (datetime.micros start1 + (60 * d2) * datetime.US_PER_SECOND) by lia.
  rewrite !Z.div_add by (unfold datetime.US_PER_SECOND; lia).
  destruct (Z.compare_spec d1 d2);
    [apply Z.compare_eq_iff | apply Z.compare_lt_iff | apply Z.compare_gt_iff]; lia.
Qed.

(** X12.  At one clock reading the start of the slot does not depend on
    the duration, and the end grows with it: when the clock reading lies
    in year 1000 or later and neither duration is negative, the texts of
    two ends are ordered, as Python compares strings, exactly as the two
    durations are (a longer meeting ends later, and equal ends mean equal
    durations). *)
Theorem find_slot_end_grows_with_duration env d1 d2 timezone1 timezone2 w :
  (forall s1 e1 s2 e2 w1 w2,
     Manual.find_slot env d1 timezone1 w = (Return (s1, e1), w1) ->
     Manual.find_slot env d2 timezone2 w = (Return (s2, e2), w2) ->
     s1 = s2
     /\ (1000 <= datetime.year (utc_reading env w) -> 0 <= d1 -> 0 <= d2 ->
         String.compare e1 e2 = (d1 ?= d2)))
  /\
  (forall s1 e1 s2 e2 w1 w2,
     Crew.find_slot env d1 timezone1 w = (Return (crew_slot s1 e1 timezone1), w1) ->
     Crew.find_slot env d2 timezone2 w = (Return (crew_slot s2 e2 timezone2), w2) ->
     s1 = s2
     /\ (1000 <= datetime.year (local_reading env w) -> 0 <= d1 -> 0 <= d2 ->
         String.compare e1 e2 = (d1 ?= d2))).
Proof.
  split; intros s1 e1 s2 e2 w1 w2.
  - rewrite !manual_find_slot_eq.
    destruct (slot_of_reading _ d1) as [[a1 b1]|] eqn:E1; [|discriminate].
    destruct (slot_of_reading _ d2) as [[a2 b2]|] eqn:E2; [|discriminate].
    intros [= <- <- _] [= <- <- _].
    destruct (slots_of_one_reading _ _ _ _ _ _ _ E1 E2) as [-> C].
    split; [reflexivity |]. intros Hy Hd1 Hd2.
    apply C.
    + exact (proj2 (slot_years _ _ _ _ E1 Hy) Hd1).
    + exact (proj2 (slot_years _ _ _ _ E2 Hy) Hd2).
  - rewrite !crew_find_slot_eq.
    destruct (slot_of_reading _ d1) as [[a1 b1]|] eqn:E1; [|discriminate].
    destruct (slot_of_reading _ d2) as [[a2 b2]|] eqn:E2; [|discriminate].
    intros [= <- <- _] [= <- <- _].
    destruct (slots_of_one_reading _ _ _ _ _ _ _ E1 E2) as [-> C].
    split; [reflexivity |]. intros Hy Hd1 Hd2.
    apply C.
    + exact (proj2 (slot_years _ _ _ _ E1 Hy) Hd1).
    + exact (proj2 (slot_years _ _ _ _ E2 Hy) Hd2).
Qed.

(** X13.  What crew.py proposes is what manual.py proposes moved by the
    host's offset from UTC: on a host whose local time is [k] seconds ahead
    of UTC, the two texts of crew.py are those of the slot of the UTC
    reading, each moved by [k] seconds. *)
Theorem crew_slot_is_utc_slot_moved_by_offset env duration_minutes timezone w k :
  utcoffset (clock env w) = k * datetime.US_PER_SECOND ->
  0 <= duration_minutes ->
  datetime.in_range (local_reading env w) ->
  datetime.in_range (slot_end (local_reading env w) duration_minutes) ->
  Crew.find_slot env duration_minutes timezone w
  = (Return
       (crew_slot
          (datetime.strftime_iso
             (datetime.plus_seconds (slot_start (utc_reading env w)) k))
          (datetime.strftime_iso
             (datetime.plus_seconds
                (slot_end (utc_reading env w) duration_minutes) k))
          timezone),
     log CallNow w).
Proof.
  intros Hk Hd Hr He.
  rewrite crew_find_slot_eq, slot_of_reading_returns by assumption.
  do 3 f_equal.
  - apply strftime_iso_ext.
    unfold datetime.seconds, slot_start, datetime.plus_seconds,
      datetime.truncate_to_second, local_reading, utc_reading.
    cbn [datetime.micros]. rewrite Hk. unfold datetime.US_PER_SECOND.
    Z.to_euclidean_division_equations. lia.
  - apply strftime_iso_ext.
    unfold datetime.seconds, slot_end, slot_start, datetime.plus_seconds,
      datetime.truncate_to_second, local_reading, utc_reading.
    cbn [datetime.micros]. rewrite Hk. unfold datetime.US_PER_SECOND.
    Z.to_euclidean_division_equations. lia.
Qed.

(** X14.  [find_slot] fails in one way only: whatever it raises is an
    [OverflowError].  Returning or raising, all it does is read the clock
    once; it writes no file and calls no other collaborator. *)
Theorem find_slot_raises_overflow_only env duration_minutes timezone w :
  (snd (Manual.find_slot env duration_minutes timezone w) = log CallNow w
   /\ forall e,
        fst (Manual.find_slot env duration_minutes timezone w) = Raise e ->
        exists msg, e = OverflowError msg)
  /\
  (snd (Crew.find_slot env duration_minutes timezone w) = log CallNow w
   /\ forall e,
        fst (Crew.find_slot env duration_minutes timezone w) = Raise e ->
        exists msg, e = OverflowError msg).
Proof.
  rewrite manual_find_slot_eq, crew_find_slot_eq. cbn [fst snd].
  split; (split; [reflexivity |]); intros e;
    destruct (slot_of_reading _ _) as [[s t]|x] eqn:E; try discriminate;
    intros [= <-]; exact (slot_of_reading_raises _ _ _ E).
Qed.

(** ** The script of manual.py *)

(** The script is [create_calendar_event] on the slot found, run in the
    world that the clock reading left. *)
Lemma main_eq env w :
  ManualScript.main env w
  = match slot_of_reading (utc_reading env w) 60 with
    | Return (start, end_) =>
        Manual.create_calendar_event env
          "Project Meeting with auto find slot"
          (datetime.strftime_iso start) (datetime.strftime_iso end_)
          ["iam.abu.017@gmail.com"]
          (Some "Discussion about next steps for the project")
          "UTC" "./test.json" "token.json" (log CallNow w)
    | Raise e => (Raise e, log CallNow w)
    end.
Proof.
  unfold ManualScript.main. unfold mbind, M_bind, bind.
  rewrite manual_find_slot_eq.
  destruct (slot_of_reading _ _) as [[s e]|x]; reflexivity.
Qed.

(** X15.  The script submits the slot it found: when the clock allows a
    slot (its end is a representable datetime) and the service is
    obtained, the one event submitted starts one hour after the UTC
    reading cut to whole seconds and ends sixty minutes later, both with
    the time zone ["UTC"]; when the clock reading lies in year 1000 or
    later, its start text precedes its end text. *)
Theorem script_submits_the_slot_found env w service w1 :
  let start_iso := datetime.strftime_iso (slot_start (utc_reading env w)) in
  let end_iso := datetime.strftime_iso (slot_end (utc_reading env w) 60) in
  let body :=
    submitted_event env "Project Meeting with auto find slot"
      start_iso end_iso ["iam.abu.017@gmail.com"]
      (Some "Discussion about next steps for the project") "UTC" w1 in
  datetime.in_range (utc_reading env w) ->
  datetime.in_range (slot_end (utc_reading env w) 60) ->
  Manual.get_calendar_service env "./test.json" "token.json" (log CallNow w)
    = (Return service, w1) ->
  (exists new,
     calls_between w (snd (ManualScript.main env w)) new
     /\ List.filter is_insert new = [CallInsert "primary" body 1 "all"])
  /\ dict_item "start" body
     = Some (PyDict [("dateTime", PyStr start_iso); ("timeZone", PyStr "UTC")])
  /\ dict_item "end" body
     = Some (PyDict [("dateTime", PyStr end_iso); ("timeZone", PyStr "UTC")])
  /\ (1000 <= datetime.year (utc_reading env w) ->
      String.ltb start_iso end_iso = true).
Proof.
  cbv zeta. intros Hr He Hs.
  pose proof (slot_of_reading_returns _ 60 ltac:(lia) Hr He) as E.
  split; [| split; [reflexivity | split; [reflexivity |]]].
  - rewrite main_eq, E.
    rewrite (strftime_iso_ext _ _ (seconds_slot_start _)).
    rewrite (strftime_iso_ext _ _ (seconds_slot_end _ _)).
    destruct (service_calls env "./test.json" "token.json" (log CallNow w))
      as (n1 & Hn1 & Hi1).
    rewrite Hs in Hn1. unfold calls_between in *. cbn [snd trace log] in Hn1.
    rewrite (manual_create_when_service_built _ _ _ _ _ _ _ _ _ _ _ _ Hs).
    eexists (_ :: CallNow :: n1 ++ [CallNow]).
    destruct (insert_execute _ _ _ _) as [r|e];
      [| destruct (isinstance_Exception e)]; unfold after_insert;
      cbn [snd trace log]; rewrite Hn1;
      (split; [cbn; rewrite <- app_assoc; reflexivity
              | cbn; rewrite List.filter_app, Hi1; reflexivity]).
  - intros Hy. destruct (slot_years _ _ _ _ E Hy) as [Ys Ye].
    pose proof (slot_text_order _ _ _ _ E Ys (Ye ltac:(lia))) as C.
    rewrite (strftime_iso_ext _ _ (seconds_slot_start _)) in C.
    rewrite (strftime_iso_ext _ _ (seconds_slot_end _ _)) in C.
    unfold String.ltb. rewrite C. reflexivity.
Qed.

(** X16.  The script does not catch what [find_slot] raises: when the end
    of the slot is past the last representable datetime, the script stops
    with [OverflowError] after the clock reading, before any credential is
    looked for; no file changes and no collaborator is called. *)
Theorem script_stops_when_no_slot env w :
  ~ datetime.in_range (slot_end (utc_reading env w) 60) ->
  exists msg,
    ManualScript.main env w = (Raise (OverflowError msg), log CallNow w).
Proof.
  intros He. destruct (slot_of_reading_overflows _ _ He) as [msg E].
  exists msg. rewrite main_eq, E. reflexivity.
Qed.

(** ** Instances of the further properties *)

Section Instances.

Local Abbreviation manual_run env w :=
  (Manual.create_calendar_event env "Project Meeting" "2026-11-03T13:00:00"
     "2026-11-03T14:00:00" ["iam.abu.017@gmail.com"] None "UTC"
     "./test.json" "token.json" w).

Local Abbreviation crew_run env w :=
  (Crew.create_calendar_event env "Project Meeting" "2026-11-03T13:00:00"
     "2026-11-03T14:00:00" ["iam.abu.017@gmail.com"] None "UTC"
     "./test.json" "token.json" w).

(** A first run on a disk that has the client-secrets file and no cache. *)
Lemma login_when_nothing_usable_is_cached_witness :
  load_cached Stub.host "token.json" StubEdge.disk_with_secrets
    = (Return None, StubEdge.disk_with_secrets)
  /\ can_save Stub.host "token.json" (to_json Stub.fresh)
       (logged_in "./test.json" StubEdge.disk_with_secrets)
  /\ files (snd (manual_run Stub.host StubEdge.disk_with_secrets)) !! "token.json"
     = Some (to_json Stub.fresh)
  /\ exists new,
       calls_between StubEdge.disk_with_secrets
         (snd (manual_run Stub.host StubEdge.disk_with_secrets)) new
       /\ List.filter is_interactive new
          = [CallRunLocalServer; CallClientSecrets "./test.json"]
       /\ List.filter is_refresh new = [].
Proof.
  assert (H1 : load_cached Stub.host "token.json" StubEdge.disk_with_secrets
               = (Return None, StubEdge.disk_with_secrets))
    by (vm_compute; reflexivity).
  assert (H4 : from_client_secrets_file Stub.host StubEdge.disk_with_secrets
                 "./test.json" = Return tt) by (vm_compute; reflexivity).
  assert (H6 : can_save Stub.host "token.json" (to_json Stub.fresh)
                 (logged_in "./test.json" StubEdge.disk_with_secrets))
    by (split; reflexivity).
  split; [exact H1 | split; [exact H6 |]].
  exact (login_when_nothing_usable_is_cached Stub.host "Project Meeting"
           "2026-11-03T13:00:00" "2026-11-03T14:00:00" ["iam.abu.017@gmail.com"]
           None "UTC" "./test.json" "token.json" _ None _ Stub.fresh
           H1 eq_refl eq_refl H4 eq_refl H6 _ (or_introl eq_refl)).
Defined.

(** An expired credential whose refresh token is the empty string. *)
Lemma empty_refresh_token_means_login_witness :
  let w := Stub.disk_with "token.json" (to_json StubEdge.tokenless) in
  expired StubEdge.tokenless = true
  /\ refresh_token StubEdge.tokenless = Some ""
  /\ can_save StubEdge.host_tokenless "token.json" (to_json Stub.fresh)
       (logged_in "./test.json" (after_load "token.json" w))
  /\ files (snd (crew_run StubEdge.host_tokenless w)) !! "token.json"
     = Some (to_json Stub.fresh)
  /\ exists new,
       calls_between w (snd (crew_run StubEdge.host_tokenless w)) new
       /\ List.filter is_refresh new = []
       /\ List.filter is_interactive new
          = [CallRunLocalServer; CallClientSecrets "./test.json"].
Proof.
  cbv zeta.
  assert (H1 : files (Stub.disk_with "token.json" (to_json StubEdge.tokenless))
                 !! "token.json" = Some (to_json StubEdge.tokenless))
    by (vm_compute; reflexivity).
  assert (H2 : can_save StubEdge.host_tokenless "token.json" (to_json Stub.fresh)
                 (logged_in "./test.json"
                    (after_load "token.json"
                       (Stub.disk_with "token.json" (to_json StubEdge.tokenless)))))
    by (split; reflexivity).
  split; [reflexivity | split; [reflexivity | split; [exact H2 |]]].
  exact (empty_refresh_token_means_login StubEdge.host_tokenless "Project Meeting"
           "2026-11-03T13:00:00" "2026-11-03T14:00:00" ["iam.abu.017@gmail.com"]
           None "UTC" "./test.json" "token.json" _ _ StubEdge.tokenless Stub.fresh
           H1 eq_refl eq_refl (or_intror eq_refl) eq_refl eq_refl H2
           _ (or_intror eq_refl)).
Defined.

(** A run on a valid cache. *)
Lemma valid_cache_leaves_disk_alone_witness :
  let w := Stub.disk_with "token.json" (to_json Stub.fresh) in
  files (snd (manual_run Stub.host w)) = files w
  /\ exists new,
       calls_between w (snd (manual_run Stub.host w)) new
       /\ List.filter is_load_token new = [CallLoadToken "token.json"]
       /\ List.filter is_refresh new = [].
Proof.
  cbv zeta.
  assert (H1 : files (Stub.disk_with "token.json" (to_json Stub.fresh))
                 !! "token.json" = Some (to_json Stub.fresh))
    by (vm_compute; reflexivity).
  assert (H2 : from_authorized_user_file Stub.host
                 (Stub.disk_with "token.json" (to_json Stub.fresh)) "token.json"
               = Return Stub.fresh) by (vm_compute; reflexivity).
  exact (valid_cache_leaves_disk_alone Stub.host "Project Meeting"
           "2026-11-03T13:00:00" "2026-11-03T14:00:00" ["iam.abu.017@gmail.com"]
           None "UTC" "./test.json" "token.json" _ _ Stub.fresh
           H1 H2 eq_refl _ (or_introl eq_refl)).
Defined.





(** The calls of a run whose insert is rejected. *)
Lemma create_calendar_event_inserts_once_witness :
  let w := Stub.disk_with "token.json" (to_json Stub.fresh) in
  exists new,
    calls_between w (snd (crew_run Stub.host_insert_rejected w)) new
    /\ match Manual.get_calendar_service Stub.host_insert_rejected
               "./test.json" "token.json" w with
       | (Return _, w1) =>
           List.filter is_insert new
           = [CallInsert "primary"
                (submitted_event Stub.host_insert_rejected "Project Meeting"
                   "2026-11-03T13:00:00" "2026-11-03T14:00:00"
                   ["iam.abu.017@gmail.com"] None "UTC" w1) 1 "all"]
           /\ List.filter is_now new = [CallNow]
       | (Raise _, _) =>
           List.filter is_insert new = [] /\ List.filter is_now new = []
       end.
Proof.
  cbv zeta.
  exact (create_calendar_event_inserts_once Stub.host_insert_rejected
           "Project Meeting" "2026-11-03T13:00:00" "2026-11-03T14:00:00"
           ["iam.abu.017@gmail.com"] None "UTC" "./test.json" "token.json"
           _ _ (or_intror eq_refl)).
Defined.

(** A first run on a disk without cache: the one file opened for writing
    is the cache file. *)
Lemma only_the_cache_path_is_opened_for_writing_witness :
  exists new,
    calls_between StubEdge.disk_with_secrets
      (snd (manual_run Stub.host StubEdge.disk_with_secrets)) new
    /\ (List.filter is_open_write new = []
        \/ List.filter is_open_write new = [CallOpenWrite "token.json"])
    /\ (List.filter is_open_write new = [] ->
        files (snd (manual_run Stub.host StubEdge.disk_with_secrets))
        = files StubEdge.disk_with_secrets).
Proof.
  exact (only_the_cache_path_is_opened_for_writing Stub.host "Project Meeting"
           "2026-11-03T13:00:00" "2026-11-03T14:00:00" ["iam.abu.017@gmail.com"]
           None "UTC" "./test.json" "token.json" _ _ (or_introl eq_refl)).
Defined.

(** Two runs in a row on a disk without cache. *)
Lemma second_run_reuses_the_cache_witness :
  let wa := snd (manual_run Stub.host StubEdge.disk_with_secrets) in
  let wb := snd (crew_run Stub.host wa) in
  files wa !! "token.json" = Some (to_json Stub.fresh)
  /\ files wb = files wa
  /\ exists new,
       calls_between wa wb new /\ List.filter is_interactive new = [].
Proof.
  cbv zeta.
  assert (H1 : load_cached Stub.host "token.json" StubEdge.disk_with_secrets
               = (Return None, StubEdge.disk_with_secrets))
    by (vm_compute; reflexivity).
  assert (H4 : from_client_secrets_file Stub.host StubEdge.disk_with_secrets
                 "./test.json" = Return tt) by (vm_compute; reflexivity).
  assert (H6 : from_authorized_user_file Stub.host
                 (snd (manual_run Stub.host StubEdge.disk_with_secrets))
                 "token.json" = Return Stub.fresh) by (vm_compute; reflexivity).
  assert (H5 : can_save Stub.host "token.json" (to_json Stub.fresh)
                 (logged_in "./test.json" StubEdge.disk_with_secrets))
    by (split; reflexivity).
  exact (second_run_reuses_the_cache Stub.host
           "Project Meeting" "2026-11-03T13:00:00" "2026-11-03T14:00:00"
           ["iam.abu.017@gmail.com"] None "UTC" "./test.json"
           "Project Meeting" "2026-11-03T13:00:00" "2026-11-03T14:00:00"
           ["iam.abu.017@gmail.com"] None "UTC" "./test.json"
           "token.json" _ None _ Stub.fresh _ Stub.fresh
           H1 eq_refl eq_refl H4 eq_refl H5 (or_introl eq_refl) H6 eq_refl
           _ (or_intror eq_refl)).
Defined.

(** Thirty and ninety minutes asked for at the same reading. *)
Lemma find_slot_end_grows_with_duration_witness :
  Manual.find_slot Stub.host 30 "UTC" Stub.empty_disk
    = (Return ("2026-11-03T13:00:00", "2026-11-03T13:30:00"),
       log CallNow Stub.empty_disk)
  /\ Manual.find_slot Stub.host 90 "UTC" Stub.empty_disk
     = (Return ("2026-11-03T13:00:00", "2026-11-03T14:30:00"),
        log CallNow Stub.empty_disk)
  /\ 1000 <= datetime.year (utc_reading Stub.host Stub.empty_disk)
  /\ String.compare "2026-11-03T13:30:00" "2026-11-03T14:30:00" = (30 ?= 90).
Proof.
  assert (H1 : Manual.find_slot Stub.host 30 "UTC" Stub.empty_disk
               = (Return ("2026-11-03T13:00:00", "2026-11-03T13:30:00"),
                  log CallNow Stub.empty_disk)) by (vm_compute; reflexivity).
  assert (H2 : Manual.find_slot Stub.host 90 "UTC" Stub.empty_disk
               = (Return ("2026-11-03T13:00:00", "2026-11-03T14:30:00"),
                  log CallNow Stub.empty_disk)) by (vm_compute; reflexivity).
  assert (H3 : 1000 <= datetime.year (utc_reading Stub.host Stub.empty_disk))
    by (vm_compute; discriminate).
  assert (H4 : 0 <= 30) by lia.
  assert (H5 : 0 <= 90) by lia.
  split; [exact H1 | split; [exact H2 | split; [exact H3 |]]].
  exact (proj2 (proj1 (find_slot_end_grows_with_duration Stub.host 30 90
                         "UTC" "UTC" Stub.empty_disk) _ _ _ _ _ _ H1 H2)
           H3 H4 H5).
Defined.

(** The host five hours east of UTC. *)
Lemma crew_slot_is_utc_slot_moved_by_offset_witness :
  utcoffset (clock Stub.host Stub.empty_disk) = 18000 * datetime.US_PER_SECOND
  /\ fst (Crew.find_slot Stub.host 60 "UTC" Stub.empty_disk)
     = Return (crew_slot "2026-11-03T18:00:00" "2026-11-03T19:00:00" "UTC").
Proof.
  assert (H0 : utcoffset (clock Stub.host Stub.empty_disk)
               = 18000 * datetime.US_PER_SECOND) by reflexivity.
  assert (H1 : datetime.in_range (local_reading Stub.host Stub.empty_disk))
    by (vm_compute; split; discriminate).
  assert (H2 : datetime.in_range
                 (slot_end (local_reading Stub.host Stub.empty_disk) 60))
    by (vm_compute; split; discriminate).
  assert (H3 : 0 <= 60) by lia.
  split; [exact H0 |].
  rewrite (crew_slot_is_utc_slot_moved_by_offset Stub.host 60 "UTC"
             Stub.empty_disk 18000 H0 H3 H1 H2).
  vm_compute. reflexivity.
Defined.

(** The last evening of the year 9999. *)
Lemma find_slot_raises_overflow_only_witness :
  fst (Manual.find_slot StubEdge.host_late 60 "UTC" Stub.empty_disk)
    = Raise (OverflowError "date value out of range")
  /\ exists msg, OverflowError "date value out of range" = OverflowError msg.
Proof.
  assert (H : fst (Manual.find_slot StubEdge.host_late 60 "UTC" Stub.empty_disk)
              = Raise (OverflowError "date value out of range"))
    by (vm_compute; reflexivity).
  split; [exact H |].
  exact (proj2 (proj1 (find_slot_raises_overflow_only StubEdge.host_late 60
                         "UTC" Stub.empty_disk)) _ H).
Defined.

(** The script on the usual host with a valid cache. *)
Lemma script_submits_the_slot_found_witness :
  let w := Stub.disk_with "token.json" (to_json Stub.fresh) in
  let w1 := log CallBuild (log (CallLoadToken "token.json") (log CallNow w)) in
  Manual.get_calendar_service Stub.host "./test.json" "token.json" (log CallNow w)
    = (Return (MkService Stub.fresh), w1)
  /\ String.ltb
       (datetime.strftime_iso (slot_start (utc_reading Stub.host w)))
       (datetime.strftime_iso (slot_end (utc_reading Stub.host w) 60)) = true.
Proof.
  cbv zeta.
  assert (H1 : datetime.in_range
                 (utc_reading Stub.host
                    (Stub.disk_with "token.json" (to_json Stub.fresh))))
    by (vm_compute; split; discriminate).
  assert (H2 : datetime.in_range
                 (slot_end
                    (utc_reading Stub.host
                       (Stub.disk_with "token.json" (to_json Stub.fresh))) 60))
    by (vm_compute; split; discriminate).
  assert (H3 : Manual.get_calendar_service Stub.host "./test.json" "token.json"
                 (log CallNow (Stub.disk_with "token.json" (to_json Stub.fresh)))
               = (Return (MkService Stub.fresh),
                  log CallBuild
                    (log (CallLoadToken "token.json")
                       (log CallNow
                          (Stub.disk_with "token.json" (to_json Stub.fresh))))))
    by (vm_compute; reflexivity).
  assert (H4 : 1000 <= datetime.year
                         (utc_reading Stub.host
                            (Stub.disk_with "token.json" (to_json Stub.fresh))))
    by (vm_compute; discriminate).
  split; [exact H3 |].
  exact (proj2 (proj2 (proj2 (script_submits_the_slot_found Stub.host _ _ _
                                H1 H2 H3))) H4).
Defined.

(** The script on the last evening of the year 9999. *)
Lemma script_stops_when_no_slot_witness :
  ~ datetime.in_range (slot_end (utc_reading StubEdge.host_late Stub.empty_disk) 60)
  /\ exists msg,
       ManualScript.main StubEdge.host_late Stub.empty_disk
       = (Raise (OverflowError msg), log CallNow Stub.empty_disk).
Proof.
  assert (H : ~ datetime.in_range
                  (slot_end (utc_reading StubEdge.host_late Stub.empty_disk) 60)).
  { intros [_ H]. vm_compute in H. apply H. reflexivity. }
  split; [exact H |].
  exact (script_stops_when_no_slot StubEdge.host_late Stub.empty_disk H).
Defined.


End Instances.
